(** * kperf [service measure]: the concurrent measurement engine

    A shallow embedding of [pkg/command/service/measure.go], from the point
    where [MeasureServices] has enumerated its targets: the construction of
    the clients, the worker goroutines, the merge of the per-worker results,
    [sortSlice], and the statistics branch, with the properties the
    specification states about them.

    - Numbers.  Go's [float64] is Rocq's primitive binary64 [float]; Go's
      [int] and [time.Duration] are 64-bit integers carried in [Z] with the
      wrap-around (or, for [Time.Sub], the saturation) written out.
    - Goroutines.  A run is driven by a schedule: the list of the events
      "worker [i] receives the next item" and "worker [i] finishes its
      item".  An iteration of a worker is one step: what it shares with the
      others it writes at its end, into its own slot or under the lock, and
      the platform is the same for the whole run.
    - Panics.  A field read through a nil pointer ends the run.
    - Other packages.  [strings.Split], [strings.Contains] and
      [strconv.ParseInt] are written out; [sort.Slice], the functions of
      package [stats] and [metav1.Time.String] are parameters. *)

From Stdlib Require Import ZArith Lia Bool String Ascii List Permutation Sorted.
From Stdlib Require Import DecimalString DecimalPos.
From Stdlib Require Import Floats.PrimFloat Floats.FloatOps Floats.SpecFloat Uint63.
From stdpp Require Import base list strings sorting.

Open Scope string_scope.
Open Scope list_scope.
Open Scope Z_scope.

(** ** Machine integers and floats *)

Definition minInt64 : Z := - 2 ^ 63.
Definition maxInt64 : Z := 2 ^ 63 - 1.

(** Two's-complement wrap-around of a Go [int] (64 bits). *)
Definition wrap64 (z : Z) : Z := (z + 2 ^ 63) mod 2 ^ 64 - 2 ^ 63.

(** [x++] on an [int]. *)
Definition incr (x : Z) : Z := wrap64 (x + 1).

(** [float64(x)] for an integer [x] with [|x| < 2^63]. *)
Definition float64_of_int (z : Z) : float :=
  if z <? 0 then PrimFloat.opp (PrimFloat.of_uint63 (Uint63.of_Z (- z)))
  else PrimFloat.of_uint63 (Uint63.of_Z z).

(** [int(x)] for a [float64]: truncation toward zero.  Outside the range of
    [int] Go leaves the result to the implementation; amd64 gives the
    smallest [int], which is what is written here. *)
Definition int_of_float64 (x : float) : Z :=
  match Prim2SF x with
  | S754_zero _ => 0
  | S754_finite s m e =>
      let v := if 0 <=? e then Z.pos m * 2 ^ e else Z.quot (Z.pos m) (2 ^ (- e)) in
      let v := if s then - v else v in
      if (minInt64 <=? v) && (v <=? maxInt64) then v else minInt64
  | _ => minInt64
  end.

(** ** [time.Time], [time.Duration] *)

(** An instant, in nanoseconds since 0001-01-01T00:00:00Z, so that the zero
    value of [metav1.Time] is [0]. *)
Definition Time : Type := Z.
Definition Duration : Type := Z.

Definition Second : Z := 1000000000.
Definition zeroTime : Time := 0.

(** [metav1.Time.Rfc3339Copy]: the instant at the precision of RFC 3339,
    whole seconds (for the instants RFC 3339 can write, years 0000-9999,
    which are the ones the API server returns). *)
Definition Rfc3339Copy (t : Time) : Time := Second * (t / Second).

(** [Time.Sub]: the difference, saturated to the range of [Duration]. *)
Definition Sub (t u : Time) : Duration :=
  let d := t - u in
  if d <? minInt64 then minInt64 else if maxInt64 <? d then maxInt64 else d.

(** [Duration.Seconds]: [float64(d / Second) + float64(d % Second) / 1e9],
    with Go's truncated division. *)
Definition Seconds (d : Duration) : float :=
  PrimFloat.add (float64_of_int (Z.quot d Second))
    (PrimFloat.div (float64_of_int (Z.rem d Second)) (float64_of_int Second)).

(** ** [strings] and [strconv] *)

(** [strings.Contains]. *)
Fixpoint Contains (s substr : string) : bool :=
  String.prefix substr s ||
  match s with
  | EmptyString => false
  | String _ s' => Contains s' substr
  end.

(** [strings.Split(s, sep)] for a separator of one byte: the segments
    between the separators, one more than there are separators. *)
Fixpoint Split (s : string) (sep : ascii) : list string :=
  match s with
  | EmptyString => [EmptyString]
  | String c s' =>
      if Ascii.eqb c sep then EmptyString :: Split s' sep
      else match Split s' sep with
           | seg :: segs => String c seg :: segs
           | [] => [String c EmptyString]
           end
  end.

Inductive NumError : Type := ErrSyntax | ErrRange.

Definition digit_of (c : ascii) : option Z :=
  let n := Z.of_N (N_of_ascii c) in
  if (48 <=? n) && (n <=? 57) then Some (n - 48) else None.

Definition maxUint64 : Z := 2 ^ 64 - 1.

(** The digit loop of [strconv.ParseUint(s, 10, 64)] from the accumulator
    [n]: a byte that is no decimal digit is a syntax error with value 0;
    an overflow stops the loop at once with the largest value. *)
Fixpoint parseUint_loop (s : string) (n : Z) : Z * option NumError :=
  match s with
  | EmptyString => (n, None)
  | String c s' =>
      match digit_of c with
      | None => (0, Some ErrSyntax)
      | Some d =>
          if maxUint64 / 10 + 1 <=? n then (maxUint64, Some ErrRange)
          else
            let n1 := n * 10 + d in
            if maxUint64 <? n1 then (maxUint64, Some ErrRange)
            else parseUint_loop s' n1
      end
  end.

Definition ParseUint (s : string) : Z * option NumError :=
  match s with
  | EmptyString => (0, Some ErrSyntax)
  | _ => parseUint_loop s 0
  end.

(** [strconv.ParseInt(s, 10, 64)]: value and error. *)
Definition ParseInt (s : string) : Z * option NumError :=
  match s with
  | EmptyString => (0, Some ErrSyntax)
  | String c s' =>
      let neg := Ascii.eqb c "-"%char in
      let digits := if Ascii.eqb c "+"%char || neg then s' else s in
      match ParseUint digits with
      | (_, Some ErrSyntax) => (0, Some ErrSyntax)
      | (un, _) =>
          let cutoff := 2 ^ 63 in
          if negb neg && (cutoff <=? un) then (cutoff - 1, Some ErrRange)
          else if neg && (cutoff <? un) then (- cutoff, Some ErrRange)
          else (if neg then - un else un, None)
      end
  end.

(** [fmt.Sprintf("%d", n)] and [strconv.Itoa]. *)
Definition Itoa (n : Z) : string := NilZero.string_of_int (Z.to_int n).

(** ** [pkg.MeasureResult] *)

(** Modelled from the spec: the declaration of [pkg.MeasureResult] is in
    package [pkg], outside the source file.  The fields are the ones
    [measure.go] reads and writes; the sums, averages and samples are
    [float64] (they receive [Duration.Seconds()]), the four counters are Go
    [int]s (they are incremented, printed with [%d] and converted with
    [float64(...)]). *)
Record MeasureSums : Type := mkSums {
  SvcConfigurationsReadySum : float;
  RevisionReadySum : float;
  DeploymentCreatedSum : float;
  PodScheduledSum : float;
  ContainersReadySum : float;
  QueueProxyStartedSum : float;
  UserContrainerStartedSum : float;
  SvcRoutesReadySum : float;
  KpaActiveSum : float;
  SksReadySum : float;
  SksActivatorEndpointsPopulatedSum : float;
  SksEndpointsPopulatedSum : float;
  IngressReadySum : float;
  IngressNetworkConfiguredSum : float;
  IngressLoadBalancerReadySum : float;
  SvcReadySum : float
}.

Record MeasureAverages : Type := mkAverages {
  AverageSvcConfigurationReadySum : float;
  AverageRevisionReadySum : float;
  AverageDeploymentCreatedSum : float;
  AveragePodScheduledSum : float;
  AverageContainersReadySum : float;
  AverageQueueProxyStartedSum : float;
  AverageUserContrainerStartedSum : float;
  AverageKpaActiveSum : float;
  AverageSksReadySum : float;
  AverageSksActivatorEndpointsPopulatedSum : float;
  AverageSksEndpointsPopulatedSum : float;
  AverageSvcRoutesReadySum : float;
  AverageIngressReadySum : float;
  AverageIngressNetworkConfiguredSum : float;
  AverageIngressLoadBalancerReadySum : float;
  OverallTotal : float;
  OverallAverage : float;
  OverallMedian : float;
  OverallMin : float;
  OverallMax : float;
  P50 : float;
  P90 : float;
  P95 : float;
  P98 : float;
  P99 : float
}.

Record ServiceCounts : Type := mkCounts {
  ReadyCount : Z;
  NotReadyCount : Z;
  NotFoundCount : Z;
  FailCount : Z
}.

Record KnativeInfo : Type := mkKnativeInfo {
  ServingVersion : string;
  EventingVersion : string;
  IngressController : string;
  IngressVersion : string
}.

Record MeasureResult : Type := mkMeasureResult {
  Sums : MeasureSums;
  Result : MeasureAverages;
  Service : ServiceCounts;
  Knative : KnativeInfo;
  SvcReadyTime : list float
}.

Definition zero : float := PrimFloat.zero.

Definition zeroSums : MeasureSums :=
  mkSums zero zero zero zero zero zero zero zero zero zero zero zero zero zero zero zero.
Definition zeroAverages : MeasureAverages :=
  mkAverages zero zero zero zero zero zero zero zero zero zero zero zero zero
    zero zero zero zero zero zero zero zero zero zero zero zero.
Definition zeroCounts : ServiceCounts := mkCounts 0 0 0 0.
Definition zeroKnativeInfo : KnativeInfo := mkKnativeInfo "" "" "" "".

(** [pkg.MeasureResult{}]: the zero value (a nil slice is the empty list). *)
Definition zeroMeasureResult : MeasureResult :=
  mkMeasureResult zeroSums zeroAverages zeroCounts zeroKnativeInfo [].

Definition set_Service (f : ServiceCounts -> ServiceCounts) (m : MeasureResult) : MeasureResult :=
  mkMeasureResult (Sums m) (Result m) (f (Service m)) (Knative m) (SvcReadyTime m).

(** The outcome of one target. *)
Inductive Classification : Type := Ready | NotReady | NotFound | Fail.

(** [currentMeasureResult.Service.<c>Count++]. *)
Definition bump (c : Classification) (s : ServiceCounts) : ServiceCounts :=
  match c with
  | Ready => mkCounts (incr (ReadyCount s)) (NotReadyCount s) (NotFoundCount s) (FailCount s)
  | NotReady => mkCounts (ReadyCount s) (incr (NotReadyCount s)) (NotFoundCount s) (FailCount s)
  | NotFound => mkCounts (ReadyCount s) (NotReadyCount s) (incr (NotFoundCount s)) (FailCount s)
  | Fail => mkCounts (ReadyCount s) (NotReadyCount s) (NotFoundCount s) (incr (FailCount s))
  end.

(** ** The platform objects the workers read

    Of each object, what [measure.go] reads from it.  A condition is the
    [LastTransitionTime] of what [Status.GetCondition] returns, [None] when
    it returns [nil]. *)

Inductive Fetched (A : Type) : Type :=
  | Got (a : A)
  | Failed (err : string).
Arguments Got {A} a.
Arguments Failed {A} err.

Record KService : Type := {
  svc_CreationTimestamp : Time;
  svc_IsReady : bool;
  svc_ConfigurationsReady : option Time;
  svc_RoutesReady : option Time
}.

Record Configuration : Type := { LatestReadyRevisionName : string }.

Record Revision : Type := {
  rev_CreationTimestamp : Time;
  rev_Ready : option Time
}.

Record PodCondition : Type := {
  cond_Type : string;
  cond_LastTransitionTime : Time
}.

(** [State.Running] is a pointer: [None] when the container is not running. *)
Record ContainerStatus : Type := {
  cs_Name : string;
  cs_Running_StartedAt : option Time
}.

Record PodStatus : Type := {
  Conditions : list PodCondition;
  ContainerStatuses : list ContainerStatus
}.

Record Pod : Type := {
  pod_CreationTimestamp : Time;
  pod_Status : PodStatus
}.

Record Deployment : Type := { dep_CreationTimestamp : Time }.

Record PodAutoscaler : Type := {
  kpa_CreationTimestamp : Time;
  kpa_Active : option Time
}.

Record ServerlessService : Type := {
  sks_CreationTimestamp : Time;
  sks_ActivatorEndpointsPopulated : option Time;
  sks_EndpointsPopulated : option Time;
  sks_Ready : option Time
}.

Record Ingress : Type := {
  ing_CreationTimestamp : Time;
  ing_NetworkConfigured : option Time;
  ing_LoadBalancerReady : option Time
}.

(** The clients: each lookup takes the namespace, then the name (for pods,
    the label selector). *)
Record Cluster : Type := {
  Services_Get : string -> string -> Fetched KService;
  Configurations_Get : string -> string -> Fetched Configuration;
  Revisions_Get : string -> string -> Fetched Revision;
  Pods_List : string -> string -> Fetched (list Pod);
  Deployments_Get : string -> string -> Fetched Deployment;
  PodAutoscalers_Get : string -> string -> Fetched PodAutoscaler;
  ServerlessServices_Get : string -> string -> Fetched ServerlessService;
  Ingresses_Get : string -> string -> Fetched Ingress
}.

Definition PodScheduled : string := "PodScheduled".
Definition ContainersReady : string := "ContainersReady".

Fixpoint getPodCondition_from (i : Z) (conds : list PodCondition) (conditionType : string)
  : Z * option PodCondition :=
  match conds with
  | [] => (-1, None)
  | c :: conds' =>
      if String.eqb (cond_Type c) conditionType then (i, Some c)
      else getPodCondition_from (i + 1) conds' conditionType
  end.

(** [getPodCondition]: the index of the condition and the condition, or
    [-1] and [nil]. *)
Definition getPodCondition (status : option PodStatus) (conditionType : string)
  : Z * option PodCondition :=
  match status with
  | None => (-1, None)
  | Some st => getPodCondition_from 0 (Conditions st) conditionType
  end.

Fixpoint getContainerStatus (status : list ContainerStatus) (name : string)
  : option ContainerStatus * bool :=
  match status with
  | [] => (None, false)
  | s :: status' =>
      if String.eqb (cs_Name s) name then (Some s, true)
      else getContainerStatus status' name
  end.

(** ** One target: the chain of lookups *)

(** The seven durations a worker goroutine declares once, before its
    [for j := range svcChannel] loop.  An iteration that does not assign one
    of them finds the value an earlier iteration of the same worker left. *)
Record WorkerVars : Type := mkVars {
  svcConfigurationsReadyDuration : Duration;
  svcReadyDuration : Duration;
  svcRoutesReadyDuration : Duration;
  podScheduledDuration : Duration;
  containersReadyDuration : Duration;
  queueProxyStartedDuration : Duration;
  userContrainerStartedDuration : Duration
}.

Definition zeroVars : WorkerVars := mkVars 0 0 0 0 0 0 0.

(** The five pod timestamps, declared inside the loop: zero in every
    iteration until assigned. *)
Record PodTimes : Type := mkPodTimes {
  podCreatedTime : Time;
  podScheduledTime : Time;
  containersReadyTime : Time;
  queueProxyStartedTime : Time;
  userContrainerStartedTime : Time
}.

Definition zeroPodTimes : PodTimes :=
  mkPodTimes zeroTime zeroTime zeroTime zeroTime zeroTime.

(** What an iteration that reaches [lock.Lock()] has in its loop-local
    variables. *)
Record Sample : Type := mkSample {
  svc : string;
  svcNs : string;
  svcCreatedTime : Time;
  svcConfigurationsReady : Time;
  svcRoutesReady : Time;
  revisionCreatedTime : Time;
  revisionReadyTime : Time;
  revisionReadyDuration : Duration;
  deploymentCreatedTime : Time;
  deploymentCreatedDuration : Duration;
  podTimes : PodTimes;
  kpaCreatedTime : Time;
  kpaActiveTime : Time;
  kpaActiveDuration : Duration;
  sksCreatedTime : Time;
  sksActivatorEndpointsPopulatedTime : Time;
  sksEndpointsPopulatedTime : Time;
  sksReadyTime : Time;
  sksActivatorEndpointsPopulatedDuration : Duration;
  sksEndpointsPopulatedDuration : Duration;
  sksReadyDuration : Duration;
  ingressCreatedTime : Time;
  ingressNetworkConfiguredTime : Time;
  ingressLoadBalancerReadyTime : Time;
  ingressNetworkConfiguredDuration : Duration;
  ingressLoadBalancerReadyDuration : Duration;
  ingressReadyDuration : Duration
}.

(** A stretch of the loop body over the worker's variables: it goes on with
    a value, or leaves the iteration through one of the [continue]s with a
    classification, or the goroutine panics on a nil pointer. *)
Inductive Step (A : Type) : Type :=
  | Val (a : A) (v : WorkerVars)
  | Stop (c : Classification) (v : WorkerVars)
  | Crash.
Arguments Val {A} a v.
Arguments Stop {A} c v.
Arguments Crash {A}.

Definition Chain (A : Type) : Type := WorkerVars -> Step A.

Definition ret {A} (a : A) : Chain A := fun v => Val a v.

Definition bind {A B} (m : Chain A) (k : A -> Chain B) : Chain B :=
  fun v =>
    match m v with
    | Val a v' => k a v'
    | Stop c v' => Stop c v'
    | Crash => Crash
    end.

Notation "'do' x <- m ; k" := (bind m (fun x => k))
  (at level 10, x pattern, m at level 100, k at level 200).
Notation "m ;; k" := (bind m (fun _ => k))
  (at level 100, k at level 200, right associativity).

Definition stop {A} (c : Classification) : Chain A := fun v => Stop c v.

(** [x, err := client.Get(...); if err != nil { ...; continue }]. *)
Definition fetch {A} (r : Fetched A) (onError : string -> Classification) : Chain A :=
  match r with
  | Got a => ret a
  | Failed err => stop (onError err)
  end.

(** A field read through a pointer: a nil pointer panics. *)
Definition deref {A} (p : option A) : Chain A :=
  match p with
  | Some a => ret a
  | None => fun _ => Crash
  end.

Definition assign (f : WorkerVars -> WorkerVars) : Chain unit :=
  fun v => Val tt (f v).

Definition set_service_durations (cfg routes ready : Duration) (v : WorkerVars) : WorkerVars :=
  mkVars cfg ready routes (podScheduledDuration v) (containersReadyDuration v)
    (queueProxyStartedDuration v) (userContrainerStartedDuration v).

Definition set_pod_condition_durations (scheduled containers : Duration) (v : WorkerVars)
  : WorkerVars :=
  mkVars (svcConfigurationsReadyDuration v) (svcReadyDuration v) (svcRoutesReadyDuration v)
    scheduled containers (queueProxyStartedDuration v) (userContrainerStartedDuration v).

Definition set_container_durations (queueProxy userContainer : Duration) (v : WorkerVars)
  : WorkerVars :=
  mkVars (svcConfigurationsReadyDuration v) (svcReadyDuration v) (svcRoutesReadyDuration v)
    (podScheduledDuration v) (containersReadyDuration v) queueProxy userContainer.

Definition serviceError (err : string) : Classification :=
  if Contains err "not found" then NotFound else Fail.

Definition dependentError (err : string) : Classification := NotReady.

(** The [if len(podList.Items) > 0 { ... }] block. *)
Definition measurePod (podList : list Pod) : Chain PodTimes :=
  match podList with
  | [] => ret zeroPodTimes
  | pod :: _ =>
      let podCreatedTime := Rfc3339Copy (pod_CreationTimestamp pod) in
      let '(present, PodScheduledCdt) := getPodCondition (Some (pod_Status pod)) PodScheduled in
      if present =? -1 then stop NotReady else
      do cdt <- deref PodScheduledCdt;
      let podScheduledTime := Rfc3339Copy (cond_LastTransitionTime cdt) in
      let '(present, containersReadyCdt) :=
        getPodCondition (Some (pod_Status pod)) ContainersReady in
      if present =? -1 then stop NotReady else
      do cdt <- deref containersReadyCdt;
      let containersReadyTime := Rfc3339Copy (cond_LastTransitionTime cdt) in
      assign (set_pod_condition_durations (Sub podScheduledTime podCreatedTime)
                (Sub containersReadyTime podCreatedTime)) ;;
      let '(queueProxyStatus, found) :=
        getContainerStatus (ContainerStatuses (pod_Status pod)) "queue-proxy" in
      if negb found then stop NotReady else
      do st <- deref queueProxyStatus;
      do started <- deref (cs_Running_StartedAt st);
      let queueProxyStartedTime := Rfc3339Copy started in
      let '(userContrainerStatus, found) :=
        getContainerStatus (ContainerStatuses (pod_Status pod)) "user-container" in
      if negb found then stop NotReady else
      do st <- deref userContrainerStatus;
      do started <- deref (cs_Running_StartedAt st);
      let userContrainerStartedTime := Rfc3339Copy started in
      assign (set_container_durations (Sub queueProxyStartedTime podCreatedTime)
                (Sub userContrainerStartedTime podCreatedTime)) ;;
      ret (mkPodTimes podCreatedTime podScheduledTime containersReadyTime
             queueProxyStartedTime userContrainerStartedTime)
  end.

(** The loop body from [servingClient.Services(svcNs).Get] down to
    [lock.Lock()]. *)
Definition resolve (cluster : Cluster) (svc svcNs : string) : Chain Sample :=
  do svcIns <- fetch (Services_Get cluster svcNs svc) serviceError;
  if negb (svc_IsReady svcIns) then stop NotReady else
  let svcCreatedTime := Rfc3339Copy (svc_CreationTimestamp svcIns) in
  do t <- deref (svc_ConfigurationsReady svcIns);
  let svcConfigurationsReady := Rfc3339Copy t in
  do t <- deref (svc_RoutesReady svcIns);
  let svcRoutesReady := Rfc3339Copy t in
  assign (set_service_durations (Sub svcConfigurationsReady svcCreatedTime)
            (Sub svcRoutesReady svcCreatedTime) (Sub svcRoutesReady svcCreatedTime)) ;;
  do cfgIns <- fetch (Configurations_Get cluster svcNs svc) dependentError;
  let revisionName := LatestReadyRevisionName cfgIns in
  do revisionIns <- fetch (Revisions_Get cluster svcNs revisionName) dependentError;
  let revisionCreatedTime := Rfc3339Copy (rev_CreationTimestamp revisionIns) in
  do t <- deref (rev_Ready revisionIns);
  let revisionReadyTime := Rfc3339Copy t in
  let revisionReadyDuration := Sub revisionReadyTime revisionCreatedTime in
  let label := "serving.knative.dev/revision=" +:+ revisionName in
  do podList <- fetch (Pods_List cluster svcNs label) dependentError;
  let deploymentName := revisionName +:+ "-deployment" in
  do deploymentIns <- fetch (Deployments_Get cluster svcNs deploymentName) dependentError;
  let deploymentCreatedTime := Rfc3339Copy (dep_CreationTimestamp deploymentIns) in
  let deploymentCreatedDuration := Sub deploymentCreatedTime revisionCreatedTime in
  do pods <- measurePod podList;
  do kpaIns <- fetch (PodAutoscalers_Get cluster svcNs revisionName) dependentError;
  let kpaCreatedTime := Rfc3339Copy (kpa_CreationTimestamp kpaIns) in
  do t <- deref (kpa_Active kpaIns);
  let kpaActiveTime := Rfc3339Copy t in
  let kpaActiveDuration := Sub kpaActiveTime kpaCreatedTime in
  do sksIns <- fetch (ServerlessServices_Get cluster svcNs revisionName) dependentError;
  let sksCreatedTime := Rfc3339Copy (sks_CreationTimestamp sksIns) in
  do t <- deref (sks_ActivatorEndpointsPopulated sksIns);
  let sksActivatorEndpointsPopulatedTime := Rfc3339Copy t in
  do t <- deref (sks_EndpointsPopulated sksIns);
  let sksEndpointsPopulatedTime := Rfc3339Copy t in
  do t <- deref (sks_Ready sksIns);
  let sksReadyTime := Rfc3339Copy t in
  let sksActivatorEndpointsPopulatedDuration :=
    Sub sksActivatorEndpointsPopulatedTime sksCreatedTime in
  let sksEndpointsPopulatedDuration := Sub sksEndpointsPopulatedTime sksCreatedTime in
  let sksReadyDuration := Sub sksReadyTime sksCreatedTime in
  do ingressIns <- fetch (Ingresses_Get cluster svcNs svc) dependentError;
  let ingressCreatedTime := Rfc3339Copy (ing_CreationTimestamp ingressIns) in
  do t <- deref (ing_NetworkConfigured ingressIns);
  let ingressNetworkConfiguredTime := Rfc3339Copy t in
  do t <- deref (ing_LoadBalancerReady ingressIns);
  let ingressLoadBalancerReadyTime := Rfc3339Copy t in
  let ingressNetworkConfiguredDuration :=
    Sub ingressNetworkConfiguredTime ingressCreatedTime in
  let ingressLoadBalancerReadyDuration :=
    Sub ingressLoadBalancerReadyTime ingressNetworkConfiguredTime in
  let ingressReadyDuration := Sub ingressLoadBalancerReadyTime ingressCreatedTime in
  ret (mkSample svc svcNs svcCreatedTime svcConfigurationsReady svcRoutesReady
         revisionCreatedTime revisionReadyTime revisionReadyDuration
         deploymentCreatedTime deploymentCreatedDuration pods
         kpaCreatedTime kpaActiveTime kpaActiveDuration
         sksCreatedTime sksActivatorEndpointsPopulatedTime sksEndpointsPopulatedTime
         sksReadyTime sksActivatorEndpointsPopulatedDuration sksEndpointsPopulatedDuration
         sksReadyDuration ingressCreatedTime ingressNetworkConfiguredTime
         ingressLoadBalancerReadyTime ingressNetworkConfiguredDuration
         ingressLoadBalancerReadyDuration ingressReadyDuration).

Definition failed {A} (r : Fetched A) : bool :=
  match r with
  | Failed _ => true
  | Got _ => false
  end.

(** One of the lookups that follow the service answers with an error: the
    configuration or, for its latest ready revision, the revision, its
    pods, its deployment, its autoscaler, its serverless service, or the
    ingress of the service. *)
Definition dependent_lookup_fails (cluster : Cluster) (svc svcNs : string) : bool :=
  match Configurations_Get cluster svcNs svc with
  | Failed _ => true
  | Got cfgIns =>
      let revisionName := LatestReadyRevisionName cfgIns in
      failed (Revisions_Get cluster svcNs revisionName)
      || failed (Pods_List cluster svcNs ("serving.knative.dev/revision=" +:+ revisionName))
      || failed (Deployments_Get cluster svcNs (revisionName +:+ "-deployment"))
      || failed (PodAutoscalers_Get cluster svcNs revisionName)
      || failed (ServerlessServices_Get cluster svcNs revisionName)
      || failed (Ingresses_Get cluster svcNs svc)
  end.

(** A platform whose objects carry what the workers read through
    pointers: every ready service its two conditions, every revision,
    autoscaler, serverless service and ingress the conditions read from it,
    and every container status of a pod its running state. *)
Record conditions_reported (cluster : Cluster) : Prop := {
  reported_service : forall ns name o,
    Services_Get cluster ns name = Got o -> svc_IsReady o = true ->
    is_Some (svc_ConfigurationsReady o) /\ is_Some (svc_RoutesReady o);
  reported_revision : forall ns name o,
    Revisions_Get cluster ns name = Got o -> is_Some (rev_Ready o);
  reported_pods : forall ns label pods,
    Pods_List cluster ns label = Got pods ->
    Forall (fun pod =>
              Forall (fun st => is_Some (cs_Running_StartedAt st))
                (ContainerStatuses (pod_Status pod))) pods;
  reported_autoscaler : forall ns name o,
    PodAutoscalers_Get cluster ns name = Got o -> is_Some (kpa_Active o);
  reported_serverless : forall ns name o,
    ServerlessServices_Get cluster ns name = Got o ->
    is_Some (sks_ActivatorEndpointsPopulated o) /\ is_Some (sks_EndpointsPopulated o) /\
    is_Some (sks_Ready o);
  reported_ingress : forall ns name o,
    Ingresses_Get cluster ns name = Got o ->
    is_Some (ing_NetworkConfigured o) /\ is_Some (ing_LoadBalancerReady o)
}.

(** ** The worker pool *)

Definition Row : Type := list string.

(** [fmt.Sprintf("%d", int(d.Seconds()))]. *)
Definition seconds_cell (d : Duration) : string := Itoa (int_of_float64 (Seconds d)).

(** A worker goroutine: its variables, its copy [currentMeasureResult] of
    its slot, and the item it has received and not yet finished. *)
Record Worker : Type := mkWorker {
  vars : WorkerVars;
  currentMeasureResult : MeasureResult;
  receiving : option (list string)
}.

(** What the goroutines share: the items the main goroutine has still to
    send on [svcChannel], the counter of the wait group, the slice of
    per-worker results, and the two tables. *)
Record State : Type := mkState {
  toSend : list (list string);
  group : Z;
  workers : list Worker;
  workerMeasureResults : list MeasureResult;
  rows : list Row;
  rawRows : list Row
}.

(** What the goroutines do, as the shared state sees it: worker [index]
    receives the item the main goroutine sends, worker [index] finishes the
    item it has. *)
Inductive Event : Type :=
  | Receive (index : nat)
  | Finish (index : nat).

(** Where a schedule leads: to a state, to the panic of a worker, or
    nowhere, when it asks for an event that cannot happen. *)
Inductive Run : Type :=
  | Running (s : State)
  | Panicked
  | NotEnabled.

(** What the run prints: the measurement with its statistics, or the
    counters only. *)
Inductive Printed : Type :=
  | Measurement
  | CountsOnly.

(** The files the run writes, in the order it writes them. *)
Inductive File : Type :=
  | RawCSV (table : list Row)
  | CSV (table : list Row)
  | JSON (result : MeasureResult)
  | HTML.

Record Report : Type := mkReport {
  measureFinalResult : MeasureResult;
  total : Z;
  printed : Printed;
  files : list File
}.

(** How [MeasureServices] ends: it returns an error, it returns [nil]
    after its report, it panics, or - under a schedule that stops early or
    cannot happen - its main goroutine is still sending or waiting. *)
Inductive Exit : Type :=
  | ReturnErr (msg : string)
  | ReturnNil (r : Report)
  | Panic
  | Blocked.

(** Modelled from the spec: [pkg.PerfParams] and the functions
    [GetKnativeVersion] and [GetIngressController] are declared outside the
    source file.  Here is what [MeasureServices] uses of them: the error, if
    any, of each client constructor, the platform behind the clients, and
    the two maps of version strings. *)
Record PerfParams : Type := {
  NewAutoscalingClient : option string;
  NewServingClient : option string;
  NewNetworkingClient : option string;
  ClientSet : Cluster;
  GetKnativeVersion : string -> string;
  GetIngressController : string -> string
}.

Definition newline : string := String (ascii_of_nat 10) EmptyString.

Definition rowsHeader : Row :=
  ["svc_name"; "svc_namespace"; "configuration_ready"; "revision_ready";
   "deployment_created"; "pod_scheduled"; "containers_ready"; "queue-proxy_started";
   "user-container_started"; "route_ready"; "kpa_active"; "sks_ready";
   "sks_activator_endpoints_populated"; "sks_endpoints_populated";
   "ingress_ready"; "ingress_config_ready"; "ingress_lb_ready"; "overall_ready"].

Definition rawRowsHeader : Row :=
  ["svc_name"; "svc_namespace"; "svc_created"; "configuration_ready"; "revision_created";
   "revision_ready"; "deployment_created"; "pod_created"; "pod_scheduled";
   "containers_ready"; "queue-proxy_started"; "user-container_started"; "route_ready";
   "kpa_created"; "kpa_active"; "sks_created"; "sks_activator_endpoints_populated";
   "sks_endpoints_populated"; "ingress_created"; "ingress_config_ready";
   "ingress_lb_ready"].

(** The closure [sortSlice] hands to [sort.Slice], on the two rows it is
    asked about: the service name is split on ["-"] and the second segment
    parsed, the error of [ParseInt] dropped.  [None] is the panic of an
    index out of range. *)
Definition less (ri rj : Row) : option bool :=
  name_i ← ri !! 0%nat;
  let a := Split name_i "-"%char in
  a1 ← a !! 1%nat;
  let indexa := fst (ParseInt a1) in
  name_j ← rj !! 0%nat;
  let b := Split name_j "-"%char in
  b1 ← b !! 1%nat;
  let indexb := fst (ParseInt b1) in
  Some (indexa <? indexb).

(** The number a row is sorted by, [None] when [less] panics on the row. *)
Definition sortKey (r : Row) : option Z :=
  name ← r !! 0%nat;
  segment ← Split name "-"%char !! 1%nat;
  Some (fst (ParseInt segment)).

Fixpoint mentions (c : ascii) (s : string) : bool :=
  match s with
  | EmptyString => false
  | String a s' => Ascii.eqb a c || mentions c s'
  end.

Definition is_digit (c : ascii) : bool :=
  match digit_of c with
  | Some _ => true
  | None => false
  end.

Fixpoint all_digits (s : string) : bool :=
  match s with
  | EmptyString => true
  | String c s' => is_digit c && all_digits s'
  end.

Definition digits_syntax (s : string) : bool :=
  match s with
  | EmptyString => false
  | _ => all_digits s
  end.

(** The syntax [ParseInt] accepts in base 10: an optional sign and one
    decimal digit or more. *)
Definition integer_syntax (s : string) : bool :=
  match s with
  | EmptyString => false
  | String c s' =>
      if Ascii.eqb c "+"%char || Ascii.eqb c "-"%char then digits_syntax s'
      else digits_syntax s
  end.

(** What [sort.Slice] promises when the comparison is "has the smaller
    key": it does not panic, and the slice holds the same rows with their
    keys in ascending order.  (It promises nothing about rows of equal
    keys: "The sort is not guaranteed to be stable".) *)
Definition sort_Slice_contract
    (sorter : (Row -> Row -> option bool) -> list Row -> option (list Row)) : Prop :=
  forall (cmp : Row -> Row -> option bool) (key : Row -> Z) (table : list Row),
    (forall a b, a ∈ table -> b ∈ table -> cmp a b = Some (key a <? key b)) ->
    exists sorted,
      sorter cmp table = Some sorted /\
      Permutation table sorted /\
      StronglySorted (fun a b => key a <= key b) sorted.

Section Engine.

(** [metav1.Time.String]. *)
Variable Time_String : Time -> string.

(** [sort.Slice], given the comparison as a function of two rows; [None]
    when the comparison panics. *)
Variable sort_Slice : (Row -> Row -> option bool) -> list Row -> option (list Row).

(** [stats.Median], [stats.Min], [stats.Max] and [stats.Percentile] of
    [github.com/montanaflynn/stats], the error dropped as the caller does. *)
Variable stats_Median stats_Min stats_Max : list float -> float.
Variable stats_Percentile : list float -> float -> float.

Variable params : PerfParams.

Definition row_of (v : WorkerVars) (s : Sample) : Row :=
  [svc s; svcNs s;
   seconds_cell (svcConfigurationsReadyDuration v);
   seconds_cell (revisionReadyDuration s);
   seconds_cell (deploymentCreatedDuration s);
   seconds_cell (podScheduledDuration v);
   seconds_cell (containersReadyDuration v);
   seconds_cell (queueProxyStartedDuration v);
   seconds_cell (userContrainerStartedDuration v);
   seconds_cell (svcRoutesReadyDuration v);
   seconds_cell (kpaActiveDuration s);
   seconds_cell (sksReadyDuration s);
   seconds_cell (sksActivatorEndpointsPopulatedDuration s);
   seconds_cell (sksEndpointsPopulatedDuration s);
   seconds_cell (ingressReadyDuration s);
   seconds_cell (ingressNetworkConfiguredDuration s);
   seconds_cell (ingressLoadBalancerReadyDuration s);
   seconds_cell (svcReadyDuration v)].

Definition rawRow_of (s : Sample) : Row :=
  [svc s; svcNs s;
   Time_String (svcCreatedTime s);
   Time_String (Rfc3339Copy (svcConfigurationsReady s));
   Time_String (revisionCreatedTime s);
   Time_String (revisionReadyTime s);
   Time_String (deploymentCreatedTime s);
   Time_String (podCreatedTime (podTimes s));
   Time_String (podScheduledTime (podTimes s));
   Time_String (containersReadyTime (podTimes s));
   Time_String (queueProxyStartedTime (podTimes s));
   Time_String (userContrainerStartedTime (podTimes s));
   Time_String (svcRoutesReady s);
   Time_String (kpaCreatedTime s);
   Time_String (kpaActiveTime s);
   Time_String (sksCreatedTime s);
   Time_String (sksActivatorEndpointsPopulatedTime s);
   Time_String (sksEndpointsPopulatedTime s);
   Time_String (ingressCreatedTime s);
   Time_String (ingressNetworkConfiguredTime s);
   Time_String (ingressLoadBalancerReadyTime s)].

(** The sixteen [currentMeasureResult.Sums.X += d.Seconds()]. *)
Definition add_sample (v : WorkerVars) (s : Sample) (m : MeasureSums) : MeasureSums :=
  let plus x d := PrimFloat.add x (Seconds d) in
  mkSums
    (plus (SvcConfigurationsReadySum m) (svcConfigurationsReadyDuration v))
    (plus (RevisionReadySum m) (revisionReadyDuration s))
    (plus (DeploymentCreatedSum m) (deploymentCreatedDuration s))
    (plus (PodScheduledSum m) (podScheduledDuration v))
    (plus (ContainersReadySum m) (containersReadyDuration v))
    (plus (QueueProxyStartedSum m) (queueProxyStartedDuration v))
    (plus (UserContrainerStartedSum m) (userContrainerStartedDuration v))
    (plus (SvcRoutesReadySum m) (svcRoutesReadyDuration v))
    (plus (KpaActiveSum m) (kpaActiveDuration s))
    (plus (SksReadySum m) (sksReadyDuration s))
    (plus (SksActivatorEndpointsPopulatedSum m) (sksActivatorEndpointsPopulatedDuration s))
    (plus (SksEndpointsPopulatedSum m) (sksEndpointsPopulatedDuration s))
    (plus (IngressReadySum m) (ingressReadyDuration s))
    (plus (IngressNetworkConfiguredSum m) (ingressNetworkConfiguredDuration s))
    (plus (IngressLoadBalancerReadySum m) (ingressLoadBalancerReadyDuration s))
    (plus (SvcReadySum m) (svcReadyDuration v)).

(** [workerMeasureResults[index] = currentMeasureResult; group.Done()]. *)
Definition publish (index : nat) (m : MeasureResult) (s : State) : State :=
  mkState (toSend s) (group s - 1) (workers s)
    (<[index := m]> (workerMeasureResults s)) (rows s) (rawRows s).

(** One of the [continue]s: count the target, publish, done. *)
Definition skip (index : nat) (c : Classification) (v : WorkerVars) (w : Worker) (s : State)
  : Worker * State :=
  let m := set_Service (bump c) (currentMeasureResult w) in
  (mkWorker v m None, publish index m s).

(** From [lock.Lock()] to [group.Done()]: the target is ready. *)
Definition record (index : nat) (sample : Sample) (v : WorkerVars) (w : Worker) (s : State)
  : Worker * State :=
  let m := set_Service (bump Ready) (currentMeasureResult w) in
  let rows' := (rows s ++ [row_of v sample]) in
  let rawRows' := (rawRows s ++ [rawRow_of sample]) in
  let m := mkMeasureResult (add_sample v sample (Sums m)) (Result m) (Service m) (Knative m)
             (SvcReadyTime m ++ [Seconds (svcReadyDuration v)]) in
  (mkWorker v m None,
   publish index m (mkState (toSend s) (group s) (workers s) (workerMeasureResults s)
                      rows' rawRows')).

(** The body of [for j := range svcChannel] in worker [index]. *)
Definition loopBody (index : nat) (j : list string) (w : Worker) (s : State)
  : option (Worker * State) :=
  match j with
  | [svc; svcNs] =>
      match resolve (ClientSet params) svc svcNs (vars w) with
      | Crash => None
      | Stop c v => Some (skip index c v w s)
      | Val sample v => Some (record index sample v w s)
      end
  | _ => Some (skip index Fail (vars w) w s)
  end.

Definition set_worker (index : nat) (w : Worker) (s : State) : State :=
  mkState (toSend s) (group s) (<[index := w]> (workers s)) (workerMeasureResults s)
    (rows s) (rawRows s).

(** The two things that happen while the main goroutine is in its sending
    loop or in [group.Wait()]: an idle worker receives the item the main
    goroutine sends ([group.Add(1); svcChannel <- item]), and a worker
    finishes the item it has. *)
Definition step (e : Event) (s : State) : Run :=
  match e with
  | Receive index =>
      match toSend s, workers s !! index with
      | item :: rest, Some w =>
          match receiving w with
          | None =>
              Running (mkState rest (group s + 1)
                         (<[index := mkWorker (vars w) (currentMeasureResult w) (Some item)]>
                            (workers s))
                         (workerMeasureResults s) (rows s) (rawRows s))
          | Some _ => NotEnabled
          end
      | _, _ => NotEnabled
      end
  | Finish index =>
      match workers s !! index with
      | Some w =>
          match receiving w with
          | Some j =>
              match loopBody index j w s with
              | Some (w', s') => Running (set_worker index w' s')
              | None => Panicked
              end
          | None => NotEnabled
          end
      | None => NotEnabled
      end
  end.

Fixpoint exec (schedule : list Event) (s : State) : Run :=
  match schedule with
  | [] => Running s
  | e :: schedule' =>
      match step e s with
      | Running s' => exec schedule' s'
      | r => r
      end
  end.

(** The state when the main goroutine reaches its sending loop:
    [inputs.Concurrency] workers, each with a fresh
    [pkg.MeasureResult{SvcReadyTime: make([]float64, 0)}]. *)
Definition initial (Concurrency : nat) (svcNamespacedName : list (list string)) : State :=
  mkState svcNamespacedName 0
    (replicate Concurrency (mkWorker zeroVars zeroMeasureResult None))
    (replicate Concurrency zeroMeasureResult) [] [].

(** ** After [group.Wait()] *)

(** One round of the merging loop:
    [measureFinalResult.X += workerMeasureResults[i].X] for the sums and the
    counters, and the samples appended. *)
Definition merge_one (final w : MeasureResult) : MeasureResult :=
  let plus (field : MeasureSums -> float) := PrimFloat.add (field (Sums final)) (field (Sums w)) in
  let count (field : ServiceCounts -> Z) := wrap64 (field (Service final) + field (Service w)) in
  mkMeasureResult
    (mkSums (plus SvcConfigurationsReadySum) (plus RevisionReadySum)
       (plus DeploymentCreatedSum) (plus PodScheduledSum) (plus ContainersReadySum)
       (plus QueueProxyStartedSum) (plus UserContrainerStartedSum) (plus SvcRoutesReadySum)
       (plus KpaActiveSum) (plus SksReadySum) (plus SksActivatorEndpointsPopulatedSum)
       (plus SksEndpointsPopulatedSum) (plus IngressReadySum)
       (plus IngressNetworkConfiguredSum) (plus IngressLoadBalancerReadySum)
       (plus SvcReadySum))
    (Result final)
    (mkCounts (count ReadyCount) (count NotReadyCount) (count NotFoundCount) (count FailCount))
    (Knative final)
    (SvcReadyTime final ++ SvcReadyTime w).

(** [for i := 0; i < inputs.Concurrency; i++ { ... }] from
    [measureFinalResult := pkg.MeasureResult{}]. *)
Definition merge (workerMeasureResults : list MeasureResult) : MeasureResult :=
  fold_left merge_one workerMeasureResults zeroMeasureResult.

(** [total := ReadyCount + NotReadyCount + NotFoundCount + FailCount]. *)
Definition total_of (c : ServiceCounts) : Z :=
  wrap64 (wrap64 (wrap64 (ReadyCount c + NotReadyCount c) + NotFoundCount c) + FailCount c).

(** [sortSlice]. *)
Definition sortSlice (table : list Row) : option (list Row) := sort_Slice less table.

(** The assignments to [measureFinalResult.Result] in the branch
    [if measureFinalResult.Service.ReadyCount > 0]. *)
Definition statistics (m : MeasureResult) : MeasureAverages :=
  let average (field : MeasureSums -> float) :=
    PrimFloat.div (field (Sums m)) (float64_of_int (ReadyCount (Service m))) in
  let percentile (p : Z) := stats_Percentile (SvcReadyTime m) (float64_of_int p) in
  {| AverageSvcConfigurationReadySum := average SvcConfigurationsReadySum;
     AverageRevisionReadySum := average RevisionReadySum;
     AverageDeploymentCreatedSum := average DeploymentCreatedSum;
     AveragePodScheduledSum := average PodScheduledSum;
     AverageContainersReadySum := average ContainersReadySum;
     AverageQueueProxyStartedSum := average QueueProxyStartedSum;
     AverageUserContrainerStartedSum := average UserContrainerStartedSum;
     AverageKpaActiveSum := average KpaActiveSum;
     AverageSksReadySum := average SksReadySum;
     AverageSksActivatorEndpointsPopulatedSum := average SksActivatorEndpointsPopulatedSum;
     AverageSksEndpointsPopulatedSum := average SksEndpointsPopulatedSum;
     AverageSvcRoutesReadySum := average SvcRoutesReadySum;
     AverageIngressReadySum := average IngressReadySum;
     AverageIngressNetworkConfiguredSum := average IngressNetworkConfiguredSum;
     AverageIngressLoadBalancerReadySum := average IngressLoadBalancerReadySum;
     OverallTotal := SvcReadySum (Sums m);
     OverallAverage := average SvcReadySum;
     OverallMedian := stats_Median (SvcReadyTime m);
     OverallMin := stats_Min (SvcReadyTime m);
     OverallMax := stats_Max (SvcReadyTime m);
     P50 := percentile 50;
     P90 := percentile 90;
     P95 := percentile 95;
     P98 := percentile 98;
     P99 := percentile 99 |}.

(** From the merging loop to [return nil]. *)
Definition report (s : State) : Exit :=
  let final := merge (workerMeasureResults s) in
  match sortSlice (rows s) with
  | None => Panic
  | Some sorted =>
      match sortSlice (rawRows s) with
      | None => Panic
      | Some rawSorted =>
          let rows := rowsHeader :: sorted in
          let rawRows := rawRowsHeader :: rawSorted in
          let total := total_of (Service final) in
          let info :=
            mkKnativeInfo (GetKnativeVersion params "serving")
              (GetKnativeVersion params "eventing")
              (GetIngressController params "ingressController")
              (GetIngressController params "version") in
          let final :=
            mkMeasureResult (Sums final) (Result final) (Service final) info
              (SvcReadyTime final) in
          if 0 <? ReadyCount (Service final) then
            let final :=
              mkMeasureResult (Sums final) (statistics final) (Service final)
                (Knative final) (SvcReadyTime final) in
            ReturnNil (mkReport final total Measurement
                         [RawCSV rawRows; CSV rows; JSON final; HTML])
          else ReturnNil (mkReport final total CountsOnly [])
      end
  end.

(** [MeasureServices] from the list of targets it has enumerated, under a
    schedule of the worker goroutines.  [make] panics on a negative length;
    the schedule is over when the main goroutine has sent every item and
    the counter of the wait group is back to zero. *)
Definition MeasureServices (svcNamespacedName : list (list string)) (Concurrency : Z)
    (schedule : list Event) : Exit :=
  match NewAutoscalingClient params with
  | Some err => ReturnErr ("failed to create autoscaling client" +:+ err +:+ newline)
  | None =>
  match NewServingClient params with
  | Some err => ReturnErr ("failed to create serving client" +:+ err +:+ newline)
  | None =>
  match NewNetworkingClient params with
  | Some err => ReturnErr ("failed to create networking client" +:+ err +:+ newline)
  | None =>
      if Concurrency <? 0 then Panic
      else if (length svcNamespacedName =? 0)%nat
      then ReturnErr "no service found to measure"
      else
        match exec schedule (initial (Z.to_nat Concurrency) svcNamespacedName) with
        | Panicked => Panic
        | NotEnabled => Blocked
        | Running s =>
            match toSend s with
            | [] => if group s =? 0 then report s else Blocked
            | _ :: _ => Blocked
            end
        end
  end end end.

End Engine.

(** ** A sorting procedure and a platform to run the engine on *)

Module Scenario.

(** [insertionSort] of package [sort], which is all [sort.Slice] does on
    a slice of at most a dozen elements: each element in turn moves left
    past the elements it is less than.  [sink] works on the sorted part of
    the slice, its last element first. *)
Fixpoint sink (cmp : Row -> Row -> option bool) (x : Row) (sorted : list Row)
  : option (list Row) :=
  match sorted with
  | [] => Some [x]
  | y :: sorted' =>
      b ← cmp x y;
      if b : bool then cons y <$> sink cmp x sorted' else Some (x :: y :: sorted')
  end.

Definition insertionSort (cmp : Row -> Row -> option bool) (table : list Row)
  : option (list Row) :=
  reverse <$> foldl (fun sorted x => sorted ← sorted; sink cmp x sorted) (Some []) table.

(** Another procedure that sorts: it takes the rows from the last to the
    first. *)
Definition backwardSort (cmp : Row -> Row -> option bool) (table : list Row)
  : option (list Row) :=
  insertionSort cmp (reverse table).

Definition seconds_String (t : Time) : string := Itoa (t / Second).

Definition no_stats (_ : list float) : float := zero.
Definition no_percentile (_ : list float) (_ : float) : float := zero.

Definition at_second (n : Z) : Time := n * Second.

(** A service created at [t0] whose stages each take the given number of
    seconds. *)
Definition kservice (t0 routes : Z) : KService :=
  {| svc_CreationTimestamp := at_second t0;
     svc_IsReady := true;
     svc_ConfigurationsReady := Some (at_second (t0 + 1));
     svc_RoutesReady := Some (at_second (t0 + routes)) |}.

Definition revision (t0 : Z) : Revision :=
  {| rev_CreationTimestamp := at_second t0; rev_Ready := Some (at_second (t0 + 3)) |}.

Definition pod (t0 scheduled : Z) : Pod :=
  {| pod_CreationTimestamp := at_second t0;
     pod_Status :=
       {| Conditions :=
            [ {| cond_Type := "Initialized"; cond_LastTransitionTime := at_second t0 |};
              {| cond_Type := PodScheduled;
                 cond_LastTransitionTime := at_second (t0 + scheduled) |};
              {| cond_Type := ContainersReady;
                 cond_LastTransitionTime := at_second (t0 + scheduled + 2) |} ];
          ContainerStatuses :=
            [ {| cs_Name := "user-container";
                 cs_Running_StartedAt := Some (at_second (t0 + scheduled + 1)) |};
              {| cs_Name := "queue-proxy";
                 cs_Running_StartedAt := Some (at_second (t0 + scheduled + 1)) |} ] |} |}.

Definition podAutoscaler (t0 : Z) : PodAutoscaler :=
  {| kpa_CreationTimestamp := at_second t0; kpa_Active := Some (at_second (t0 + 2)) |}.

Definition serverlessService (t0 : Z) : ServerlessService :=
  {| sks_CreationTimestamp := at_second t0;
     sks_ActivatorEndpointsPopulated := Some (at_second (t0 + 1));
     sks_EndpointsPopulated := Some (at_second (t0 + 2));
     sks_Ready := Some (at_second (t0 + 2)) |}.

Definition ingress (t0 : Z) : Ingress :=
  {| ing_CreationTimestamp := at_second t0;
     ing_NetworkConfigured := Some (at_second (t0 + 1));
     ing_LoadBalancerReady := Some (at_second (t0 + 2)) |}.

Definition T0 : Z := 63700000000.

Definition notFound {A} (name : string) : Fetched A := Failed (name +:+ " not found").

(** The platform: services [svc-1] (a pod scheduled after 2s), [svc-3]
    (no configuration), [svc-4] (ready, and no pod behind its revision),
    [svc-5] (the API server answers with an error), [svc-6] (not ready);
    everything else is not found. *)
Definition cluster : Cluster :=
  {| Services_Get := fun ns name =>
       if String.eqb name "svc-1" then Got (kservice T0 5)
       else if String.eqb name "svc-3" then Got (kservice T0 7)
       else if String.eqb name "svc-4" then Got (kservice T0 4)
       else if String.eqb name "svc-5" then Failed "etcdserver: request timed out"
       else if String.eqb name "svc-6" then
         Got {| svc_CreationTimestamp := at_second T0; svc_IsReady := false;
                svc_ConfigurationsReady := None; svc_RoutesReady := None |}
       else notFound name;
     Configurations_Get := fun ns name =>
       if String.eqb name "svc-1" then Got {| LatestReadyRevisionName := "svc-1-00001" |}
       else if String.eqb name "svc-4" then Got {| LatestReadyRevisionName := "svc-4-00001" |}
       else notFound name;
     Revisions_Get := fun ns name =>
       if String.eqb name "svc-1-00001" || String.eqb name "svc-4-00001"
       then Got (revision T0) else notFound name;
     Pods_List := fun ns label =>
       if String.eqb label "serving.knative.dev/revision=svc-1-00001"
       then Got [pod (T0 + 1) 2] else Got [];
     Deployments_Get := fun ns name =>
       if String.eqb name "svc-1-00001-deployment" || String.eqb name "svc-4-00001-deployment"
       then Got {| dep_CreationTimestamp := at_second (T0 + 1) |} else notFound name;
     PodAutoscalers_Get := fun ns name =>
       if String.eqb name "svc-1-00001" || String.eqb name "svc-4-00001"
       then Got (podAutoscaler T0) else notFound name;
     ServerlessServices_Get := fun ns name =>
       if String.eqb name "svc-1-00001" || String.eqb name "svc-4-00001"
       then Got (serverlessService T0) else notFound name;
     Ingresses_Get := fun ns name =>
       if String.eqb name "svc-1" || String.eqb name "svc-4"
       then Got (ingress T0) else notFound name |}.

(** The same platform, except that two conditions of the ingresses were
    never set and carry the zero time: [NetworkConfigured] for [svc-1],
    [LoadBalancerReady] for [svc-4]. *)
Definition unset_conditions : Cluster :=
  {| Services_Get := Services_Get cluster;
     Configurations_Get := Configurations_Get cluster;
     Revisions_Get := Revisions_Get cluster;
     Pods_List := Pods_List cluster;
     Deployments_Get := Deployments_Get cluster;
     PodAutoscalers_Get := PodAutoscalers_Get cluster;
     ServerlessServices_Get := ServerlessServices_Get cluster;
     Ingresses_Get := fun ns name =>
       if String.eqb name "svc-1" then
         Got {| ing_CreationTimestamp := at_second T0;
                ing_NetworkConfigured := Some zeroTime;
                ing_LoadBalancerReady := Some (at_second (T0 + 2)) |}
       else if String.eqb name "svc-4" then
         Got {| ing_CreationTimestamp := at_second T0;
                ing_NetworkConfigured := Some (at_second (T0 + 1));
                ing_LoadBalancerReady := Some zeroTime |}
       else notFound name |}.

(** A platform on which every service, whatever its name, is ready. *)
Definition uniform : Cluster :=
  {| Services_Get := fun _ _ => Got (kservice T0 5);
     Configurations_Get := fun _ name => Got {| LatestReadyRevisionName := name +:+ "-00001" |};
     Revisions_Get := fun _ _ => Got (revision T0);
     Pods_List := fun _ _ => Got [pod (T0 + 1) 2];
     Deployments_Get := fun _ _ => Got {| dep_CreationTimestamp := at_second (T0 + 1) |};
     PodAutoscalers_Get := fun _ _ => Got (podAutoscaler T0);
     ServerlessServices_Get := fun _ _ => Got (serverlessService T0);
     Ingresses_Get := fun _ _ => Got (ingress T0) |}.

Definition params_on (platform : Cluster) : PerfParams :=
  {| NewAutoscalingClient := None;
     NewServingClient := None;
     NewNetworkingClient := None;
     ClientSet := platform;
     GetKnativeVersion := fun _ => "1.0";
     GetIngressController := fun _ => "kourier" |}.

Definition params : PerfParams := params_on cluster.

Definition run_with (sorter : (Row -> Row -> option bool) -> list Row -> option (list Row))
    (platform : Cluster) : list (list string) -> Z -> list Event -> Exit :=
  MeasureServices seconds_String sorter no_stats no_stats no_stats no_percentile
    (params_on platform).

Definition run : list (list string) -> Z -> list Event -> Exit :=
  run_with insertionSort cluster.

(** One worker takes the targets one after the other. *)
Definition one_by_one (n : nat) : list Event :=
  concat (replicate n [Receive 0; Finish 0]).

(** The table of durations a run writes, without its header. *)
Definition durations_written (e : Exit) : list Row :=
  match e with
  | ReturnNil r =>
      match files r with
      | [_; CSV (_ :: table); _; _] => table
      | _ => []
      end
  | _ => []
  end.

Definition timestamps_written (e : Exit) : list Row :=
  match e with
  | ReturnNil r =>
      match files r with
      | [RawCSV (_ :: table); _; _; _] => table
      | _ => []
      end
  | _ => []
  end.

Definition name_and_namespace (row : Row) : list string := take 2 row.

(** The results three workers are left with on [unset_conditions], when
    the first takes [svc-4], the second [svc-1] twice, and the third
    [svc-1] once. *)
Definition three_workers : list MeasureResult :=
  match
    exec seconds_String (params_on unset_conditions)
      [Receive 0; Receive 1; Receive 2; Finish 0; Finish 1; Finish 2; Receive 1; Finish 1]%nat
      (initial 3 [["svc-4"; "ns"]; ["svc-1"; "ns"]; ["svc-1"; "ns"]; ["svc-1"; "ns"]])
  with
  | Running s => workerMeasureResults s
  | _ => []
  end.

End Scenario.

(** ** What the properties are stated with *)

(** The sum of an integer measure over a list. *)
Definition sumZ {A} (f : A -> Z) (l : list A) : Z := foldr (fun x acc => f x + acc) 0 l.

(** The number of targets a set of counters accounts for. *)
Definition classified (c : ServiceCounts) : Z :=
  ReadyCount c + NotReadyCount c + NotFoundCount c + FailCount c.

Definition nonneg (c : ServiceCounts) : Prop :=
  0 <= ReadyCount c /\ 0 <= NotReadyCount c /\ 0 <= NotFoundCount c /\ 0 <= FailCount c.

(** [measureFinalResult.Service.X += workerMeasureResults[i].Service.X],
    the four of them. *)
Definition add_counts (a b : ServiceCounts) : ServiceCounts :=
  mkCounts (wrap64 (ReadyCount a + ReadyCount b))
    (wrap64 (NotReadyCount a + NotReadyCount b))
    (wrap64 (NotFoundCount a + NotFoundCount b))
    (wrap64 (FailCount a + FailCount b)).

(** Whether a worker has an item, and how many workers have. *)
Definition is_busy (w : Worker) : Z :=
  match receiving w with
  | Some _ => 1
  | None => 0
  end.

Definition busy (ws : list Worker) : Z := sumZ is_busy ws.

Definition counted (ms : list MeasureResult) : Z :=
  sumZ (fun m => classified (Service m)) ms.

(** The invariant of a run over [n] targets: each worker's slot is its
    current result, no counter is negative, the wait group counts the
    workers at work, and every target is either still to be sent, or with a
    worker, or counted. *)
Record Inv (n : Z) (s : State) : Prop := {
  inv_slots : forall i w,
    workers s !! i = Some w ->
    workerMeasureResults s !! i = Some (currentMeasureResult w);
  inv_nonneg : Forall (fun m => nonneg (Service m)) (workerMeasureResults s);
  inv_group : group s = busy (workers s);
  inv_total :
    counted (workerMeasureResults s) + busy (workers s) + Z.of_nat (length (toSend s)) = n
}.

(** A result in which the overall-ready sum is the routes-ready sum, and
    is what the samples add up to, in the order they were appended. *)
Definition overall_is_routes (m : MeasureResult) : Prop :=
  SvcReadySum (Sums m) = SvcRoutesReadySum (Sums m) /\
  fold_left PrimFloat.add (SvcReadyTime m) zero = SvcRoutesReadySum (Sums m).

(** The columns [route_ready] and [overall_ready] of a row of durations. *)
Definition route_ready_column : nat := 9.
Definition overall_ready_column : nat := 17.

Definition overall_cell_is_routes_cell (row : Row) : Prop :=
  is_Some (row !! overall_ready_column) /\
  row !! overall_ready_column = row !! route_ready_column.

(** The number a string of decimal digits denotes, continuing [acc]. *)
Fixpoint uint_value (d : Decimal.uint) (acc : Z) : Z :=
  match d with
  | Decimal.Nil => acc
  | Decimal.D0 d => uint_value d (10 * acc)
  | Decimal.D1 d => uint_value d (10 * acc + 1)
  | Decimal.D2 d => uint_value d (10 * acc + 2)
  | Decimal.D3 d => uint_value d (10 * acc + 3)
  | Decimal.D4 d => uint_value d (10 * acc + 4)
  | Decimal.D5 d => uint_value d (10 * acc + 5)
  | Decimal.D6 d => uint_value d (10 * acc + 6)
  | Decimal.D7 d => uint_value d (10 * acc + 7)
  | Decimal.D8 d => uint_value d (10 * acc + 8)
  | Decimal.D9 d => uint_value d (10 * acc + 9)
  end.

(** The key of a row that has one. *)
Definition key_of (r : Row) : Z := default 0 (sortKey r).

Definition sortable (r : Row) : Prop := is_Some (sortKey r).

(** A target whose service name has a "-" in it. *)
Definition dashed (j : list string) : Prop :=
  forall svc svcNs, j = [svc; svcNs] -> mentions "-" svc = true.

(** The four pod durations of a row of durations. *)
Definition pod_columns (row : Row) : list string := take 4 (drop 5 row).

(** Unfolding the chain of lookups, and the cases of its [match]es from
    the inside out. *)
Ltac unfold_chain :=
  unfold resolve, measurePod, bind, fetch, deref, assign, ret, stop, serviceError,
    dependentError.

Ltac destruct_chain tac :=
  repeat (match goal with
          | |- context [match ?x with _ => _ end] =>
              lazymatch x with
              | context [match _ with _ => _ end] => fail
              | _ => destruct x eqn:?; simpl
              end
          end; try solve [tac]).

(** * Properties *)

(** ** Arithmetic of the counters *)

Lemma wrap64_small z : minInt64 <= z <= maxInt64 -> wrap64 z = z.
Proof.
  unfold wrap64, minInt64, maxInt64. intros H.
  rewrite Z.mod_small; lia.
Qed.

Lemma wrap64_add_l a b : wrap64 (wrap64 a + b) = wrap64 (a + b).
Proof.
  unfold wrap64.
  replace (((a + 2 ^ 63) mod 2 ^ 64 - 2 ^ 63) + b + 2 ^ 63)
    with ((a + 2 ^ 63) mod 2 ^ 64 + b) by lia.
  rewrite Zplus_mod_idemp_l. do 2 f_equal. lia.
Qed.

Lemma incr_small x : 0 <= x < maxInt64 -> incr x = x + 1.
Proof. intros H. apply wrap64_small. unfold minInt64, maxInt64 in *. lia. Qed.

Lemma sumZ_insert {A} (f : A -> Z) (l : list A) (i : nat) (x y : A) :
  l !! i = Some x -> sumZ f (<[i := y]> l) = sumZ f l - f x + f y.
Proof.
  revert i. induction l as [|a l IH]; intros [|i] H; simpl in *; try discriminate.
  - inversion H; subst. lia.
  - rewrite (IH i H). lia.
Qed.

Lemma sumZ_nonneg {A} (f : A -> Z) (l : list A) :
  Forall (fun x => 0 <= f x) l -> 0 <= sumZ f l.
Proof. induction 1; simpl; lia. Qed.

Lemma sumZ_lookup_le {A} (f : A -> Z) (l : list A) (i : nat) (x : A) :
  Forall (fun x => 0 <= f x) l -> l !! i = Some x -> f x <= sumZ f l.
Proof.
  intros HF. revert i. induction HF as [|a l Ha HF IH]; intros [|i] H; simpl in *;
    try discriminate.
  - inversion H; subst. pose proof (sumZ_nonneg f l HF). lia.
  - specialize (IH i H). lia.
Qed.

Lemma sumZ_replicate {A} (f : A -> Z) (n : nat) (x : A) :
  sumZ f (replicate n x) = Z.of_nat n * f x.
Proof. induction n; simpl replicate; simpl sumZ; lia. Qed.

Lemma bump_classified c s :
  nonneg s -> classified s < maxInt64 ->
  classified (bump c s) = classified s + 1 /\ nonneg (bump c s).
Proof.
  unfold nonneg, classified. intros (H1 & H2 & H3 & H4) Hlt.
  destruct c; simpl; rewrite incr_small by lia; lia.
Qed.

Lemma merge_one_Service final w :
  Service (merge_one final w) = add_counts (Service final) (Service w).
Proof. reflexivity. Qed.

Lemma fold_merge_Service ws acc :
  Service (fold_left merge_one ws acc) = fold_left add_counts (map Service ws) (Service acc).
Proof.
  revert acc. induction ws as [|w ws IH]; intros acc; simpl; [done|].
  by rewrite IH, merge_one_Service.
Qed.

Lemma fold_add_counts_exact cs acc :
  nonneg acc -> Forall nonneg cs ->
  classified acc + sumZ classified cs <= maxInt64 ->
  fold_left add_counts cs acc =
    mkCounts (ReadyCount acc + sumZ ReadyCount cs)
      (NotReadyCount acc + sumZ NotReadyCount cs)
      (NotFoundCount acc + sumZ NotFoundCount cs)
      (FailCount acc + sumZ FailCount cs).
Proof.
  intros Hacc HF. revert acc Hacc.
  induction HF as [|c cs Hc HF IH]; intros acc Hacc Hle; simpl.
  - destruct acc; simpl. f_equal; lia.
  - assert (Hs : 0 <= sumZ classified cs).
    { apply sumZ_nonneg. eapply Forall_impl; [exact HF|].
      unfold nonneg, classified. intros; lia. }
    simpl in Hle. unfold nonneg, classified in *.
    destruct Hacc as (A1 & A2 & A3 & A4), Hc as (C1 & C2 & C3 & C4).
    assert (Hadd : add_counts acc c =
                   mkCounts (ReadyCount acc + ReadyCount c)
                     (NotReadyCount acc + NotReadyCount c)
                     (NotFoundCount acc + NotFoundCount c) (FailCount acc + FailCount c)).
    { unfold add_counts. rewrite !wrap64_small; [done|..];
        unfold minInt64, maxInt64 in *; lia. }
    rewrite Hadd, IH; simpl; [f_equal; lia | lia | lia].
Qed.

(** ** The classification of one target *)

Lemma getPodCondition_from_nil i conds conditionType present :
  getPodCondition_from i conds conditionType = (present, None) -> present = -1.
Proof.
  revert i. induction conds as [|c conds IH]; intros i; simpl.
  - by intros [= <-].
  - destruct (String.eqb _ _); [discriminate|]. apply IH.
Qed.

Lemma getContainerStatus_found status name st :
  getContainerStatus status name = (st, true) -> exists s, st = Some s /\ s ∈ status.
Proof.
  induction status as [|s status IH]; simpl; [discriminate|].
  destruct (String.eqb _ _).
  - intros [= <-]. exists s. split; [done|left].
  - intros H. destruct (IH H) as (s' & -> & Hin). exists s'. split; [done|by right].
Qed.

(** On such a platform no iteration panics. *)
Lemma resolve_no_crash cluster svc svcNs v :
  conditions_reported cluster -> resolve cluster svc svcNs v <> Crash.
Proof.
  intros Hwf. unfold resolve. unfold bind, fetch, deref, assign, stop, dependentError.
  unfold ret.
  destruct (Services_Get cluster svcNs svc) as [svcIns|err] eqn:Hsvc; cbv beta iota;
    [|discriminate].
  destruct (svc_IsReady svcIns) eqn:Hready; cbn [negb]; cbv beta iota; [|discriminate].
  destruct (reported_service _ Hwf _ _ _ Hsvc Hready) as [[t1 ->] [t2 ->]].
  destruct (Configurations_Get _ _ _) as [cfgIns|]; cbv beta iota; [|discriminate].
  destruct (Revisions_Get _ _ _) as [revisionIns|] eqn:Hrev; cbv beta iota; [|discriminate].
  destruct (reported_revision _ Hwf _ _ _ Hrev) as [t3 ->].
  destruct (Pods_List _ _ _) as [podList|] eqn:Hpods; cbv beta iota; [|discriminate].
  destruct (Deployments_Get _ _ _) as [deploymentIns|]; cbv beta iota; [|discriminate].
  pose proof (reported_pods _ Hwf _ _ _ Hpods) as Hrunning.
  match goal with |- context [measurePod podList ?v0] =>
    assert (Hpod : measurePod podList v0 <> Crash); [|destruct (measurePod podList v0)] end;
    [|clear Hpod|done|done].
  { destruct podList as [|pod podList]; [done|].
    apply Forall_cons in Hrunning as [Hrunning _]. rewrite Forall_forall in Hrunning.
    unfold measurePod, getPodCondition. unfold bind, deref, assign, stop. unfold ret.
    destruct (getPodCondition_from 0 _ PodScheduled) as [present [cdt|]] eqn:H1.
    2:{ apply getPodCondition_from_nil in H1 as ->. done. }
    destruct (present =? -1); [done|].
    destruct (getPodCondition_from 0 _ ContainersReady) as [present' [cdt'|]] eqn:H2.
    2:{ apply getPodCondition_from_nil in H2 as ->. done. }
    destruct (present' =? -1); [done|].
    destruct (getContainerStatus _ "queue-proxy") as [st [|]] eqn:H3; [|done]. cbn [negb].
    apply getContainerStatus_found in H3 as (s1 & -> & Hin1).
    destruct (Hrunning _ Hin1) as [started1 ->].
    destruct (getContainerStatus _ "user-container") as [st [|]] eqn:H4; [|done]. cbn [negb].
    apply getContainerStatus_found in H4 as (s2 & -> & Hin2).
    by destruct (Hrunning _ Hin2) as [started2 ->]. }
  cbv beta iota.
  destruct (PodAutoscalers_Get _ _ _) as [kpaIns|] eqn:Hkpa; cbv beta iota; [|discriminate].
  destruct (reported_autoscaler _ Hwf _ _ _ Hkpa) as [t4 ->].
  destruct (ServerlessServices_Get _ _ _) as [sksIns|] eqn:Hsks; cbv beta iota; [|discriminate].
  destruct (reported_serverless _ Hwf _ _ _ Hsks) as ([t5 ->] & [t6 ->] & [t7 ->]).
  destruct (Ingresses_Get _ _ _) as [ingressIns|] eqn:Hing; cbv beta iota; [|discriminate].
  by destruct (reported_ingress _ Hwf _ _ _ Hing) as ([t8 ->] & [t9 ->]).
Qed.

(** C4.  The lookup of the service decides between the three outcomes it
    can give: an error whose text contains "not found" classifies the
    target [NotFound], any other error [Fail], and a service that is
    fetched and is not ready [NotReady].  Once the service is fetched, the
    iteration is never left with [Fail] or [NotFound]: every [continue]
    classifies [NotReady]; and an error in a lookup that follows
    (configuration, revision, pods, deployment, autoscaler, serverless
    service, ingress) keeps the target from being measured: the iteration
    ends [NotReady], unless the goroutine panicked on a nil condition
    before it reached the failing lookup - which does not happen on a
    platform whose objects report their conditions. *)
Theorem C4_classification_of_lookup_errors cluster svc svcNs v :
  (forall err,
      Services_Get cluster svcNs svc = Failed err ->
      Contains err "not found" = true ->
      resolve cluster svc svcNs v = Stop NotFound v) /\
  (forall err,
      Services_Get cluster svcNs svc = Failed err ->
      Contains err "not found" = false ->
      resolve cluster svc svcNs v = Stop Fail v) /\
  (forall svcIns,
      Services_Get cluster svcNs svc = Got svcIns ->
      svc_IsReady svcIns = false ->
      resolve cluster svc svcNs v = Stop NotReady v) /\
  (forall svcIns,
      Services_Get cluster svcNs svc = Got svcIns ->
      (forall c v', resolve cluster svc svcNs v = Stop c v' -> c = NotReady) /\
      (dependent_lookup_fails cluster svc svcNs = true ->
       (resolve cluster svc svcNs v = Crash \/
        exists v', resolve cluster svc svcNs v = Stop NotReady v') /\
       (conditions_reported cluster ->
        exists v', resolve cluster svc svcNs v = Stop NotReady v'))).
Proof.
  assert (Hdep : forall svcIns,
            Services_Get cluster svcNs svc = Got svcIns ->
            dependent_lookup_fails cluster svc svcNs = true ->
            resolve cluster svc svcNs v = Crash \/
            exists v', resolve cluster svc svcNs v = Stop NotReady v').
  { intros svcIns H. unfold dependent_lookup_fails, failed. unfold_chain. rewrite H.
    destruct_chain ltac:(intros; first [discriminate | by left | right; by eexists]). }
  repeat split.
  - intros err H Hc. unfold_chain. by rewrite H, Hc.
  - intros err H Hc. unfold_chain. by rewrite H, Hc.
  - intros svcIns H Hr. unfold_chain. by rewrite H, Hr.
  - intros c v'. unfold_chain. rewrite H.
    destruct_chain ltac:(intros; congruence).
  - by eapply Hdep.
  - intros Hwf. destruct (Hdep _ H H0) as [Hcrash|Hstop]; [|done].
    by destruct (resolve_no_crash cluster svc svcNs v Hwf).
Qed.

(** ** Every target is counted once *)

Section Accounting.

Variable Time_String : Time -> string.
Variable params : PerfParams.

Local Abbreviation body := (loopBody Time_String params).
Local Abbreviation next := (step Time_String params).
Local Abbreviation run := (exec Time_String params).

(** What one iteration does to the shared state, whatever the target. *)
Lemma loopBody_effect index j w s w' s' :
  body index j w s = Some (w', s') ->
  (exists c, Service (currentMeasureResult w') = bump c (Service (currentMeasureResult w))) /\
  receiving w' = None /\
  toSend s' = toSend s /\
  group s' = group s - 1 /\
  workers s' = workers s /\
  workerMeasureResults s' = <[index := currentMeasureResult w']> (workerMeasureResults s).
Proof.
  unfold loopBody. intros H.
  destruct j as [|a [|b [|? ?]]];
    try (inversion H; subst; simpl; split; [by exists Fail | done]).
  destruct (resolve _ a b (vars w)) as [sample v|c v|]; inversion H; subst; simpl.
  - split; [by exists Ready | done].
  - split; [by exists c | done].
Qed.

Lemma is_busy_nonneg ws : Forall (fun w => 0 <= is_busy w) ws.
Proof. apply Forall_forall. intros w _. unfold is_busy. destruct (receiving w); lia. Qed.

Lemma classified_nonneg ms :
  Forall (fun m => nonneg (Service m)) ms ->
  Forall (fun m => 0 <= classified (Service m)) ms.
Proof.
  intros H. eapply Forall_impl; [exact H|].
  unfold nonneg, classified. intros; lia.
Qed.

Lemma Inv_initial Concurrency items :
  Inv (Z.of_nat (length items)) (initial Concurrency items).
Proof.
  split; simpl.
  - intros i w H. apply lookup_replicate in H as [-> Hi].
    by apply lookup_replicate_2.
  - apply Forall_replicate. unfold nonneg; simpl; lia.
  - unfold busy. rewrite sumZ_replicate. unfold is_busy; simpl. lia.
  - unfold counted, busy. rewrite !sumZ_replicate. unfold is_busy, classified; simpl. lia.
Qed.

Lemma Inv_step n e s s' :
  n <= maxInt64 -> Inv n s -> next e s = Running s' -> Inv n s'.
Proof.
  intros Hn [Hslots Hnn Hgroup Htotal] Hstep.
  destruct e as [index|index]; simpl in Hstep.
  - destruct (toSend s) as [|item rest] eqn:Hsend; [discriminate|].
    destruct (workers s !! index) as [w|] eqn:Hw; [|discriminate].
    destruct (receiving w) eqn:Hrecv; [discriminate|].
    injection Hstep as <-.
    assert (Hbusy : busy (<[index := mkWorker (vars w) (currentMeasureResult w) (Some item)]>
                            (workers s)) = busy (workers s) + 1).
    { unfold busy. rewrite (sumZ_insert _ _ _ w) by done.
      unfold is_busy; simpl. rewrite Hrecv. lia. }
    split; simpl.
    + intros i w0 H. destruct (decide (index = i)) as [->|Hne].
      * rewrite list_lookup_insert_eq in H by (by eapply lookup_lt_Some).
        inversion H; subst; simpl. by apply Hslots.
      * rewrite list_lookup_insert_ne in H by done. by apply Hslots.
    + done.
    + rewrite Hbusy. lia.
    + rewrite Hbusy. simpl in Htotal. lia.
  - destruct (workers s !! index) as [w|] eqn:Hw; [|discriminate].
    destruct (receiving w) as [j|] eqn:Hrecv; [|discriminate].
    destruct (body index j w s) as [[w' s1]|] eqn:Hbody; [|discriminate].
    injection Hstep as <-.
    apply loopBody_effect in Hbody as ([c Hc] & Hidle & Hsend & Hg & Hws & Hms).
    pose proof (Hslots _ _ Hw) as Hslot.
    assert (Hwbusy : 1 <= busy (workers s)).
    { pose proof (sumZ_lookup_le is_busy _ _ _ (is_busy_nonneg _) Hw) as Hle.
      unfold is_busy at 1 in Hle. rewrite Hrecv in Hle. exact Hle. }
    assert (Hold : nonneg (Service (currentMeasureResult w))).
    { rewrite Forall_forall in Hnn. apply Hnn. eapply list_elem_of_lookup_2, Hslot. }
    assert (Hsum : 0 <= counted (workerMeasureResults s)).
    { apply sumZ_nonneg, classified_nonneg, Hnn. }
    assert (Hle : classified (Service (currentMeasureResult w))
                  <= counted (workerMeasureResults s)).
    { apply (sumZ_lookup_le (fun m => classified (Service m)) _ index);
        [by apply classified_nonneg | done]. }
    destruct (bump_classified c _ Hold) as [Hplus Hnew]; [lia|].
    assert (Hbusy : busy (<[index := w']> (workers s)) = busy (workers s) - 1).
    { unfold busy. rewrite (sumZ_insert _ _ _ w) by done.
      unfold is_busy. rewrite Hrecv, Hidle. lia. }
    assert (Hcounted : counted (<[index := currentMeasureResult w']> (workerMeasureResults s))
                       = counted (workerMeasureResults s) + 1).
    { unfold counted. rewrite (sumZ_insert _ _ _ (currentMeasureResult w)) by done.
      rewrite Hc, Hplus. lia. }
    split; simpl; rewrite ?Hws, ?Hms, ?Hsend, ?Hg.
    + intros i w0 H. destruct (decide (index = i)) as [->|Hne].
      * rewrite list_lookup_insert_eq in H by (by eapply lookup_lt_Some).
        inversion H; subst.
        apply list_lookup_insert_eq. by eapply lookup_lt_Some.
      * rewrite list_lookup_insert_ne in H by done.
        rewrite list_lookup_insert_ne by done. by apply Hslots.
    + apply Forall_insert; [done|]. by rewrite Hc.
    + rewrite Hbusy. lia.
    + rewrite Hbusy, Hcounted. lia.
Qed.

Lemma Inv_exec n schedule s s' :
  n <= maxInt64 -> Inv n s -> run schedule s = Running s' -> Inv n s'.
Proof.
  intros Hn. revert s. induction schedule as [|e schedule IH]; intros s HI H; simpl in H.
  - by inversion H; subst.
  - destruct (next e s) as [s1| |] eqn:Hstep; try discriminate.
    eapply IH; [|exact H]. by eapply Inv_step.
Qed.

(** When the wait is over, the merged counters add up to the number of
    targets. *)
Lemma merge_counts n s :
  n <= maxInt64 -> Inv n s -> toSend s = [] -> group s = 0 ->
  classified (Service (merge (workerMeasureResults s))) = n /\
  total_of (Service (merge (workerMeasureResults s))) = n /\
  nonneg (Service (merge (workerMeasureResults s))).
Proof.
  intros Hn [Hslots Hnn Hgroup Htotal] Hsend Hg.
  rewrite Hsend in Htotal. simpl in Htotal. rewrite <- Hgroup, Hg in Htotal.
  unfold merge. rewrite fold_merge_Service.
  assert (HF : Forall nonneg (map Service (workerMeasureResults s))).
  { by apply Forall_map. }
  assert (Hsum : sumZ classified (map Service (workerMeasureResults s)) = n).
  { unfold counted in Htotal. rewrite <- Htotal.
    clear. induction (workerMeasureResults s); simpl; lia. }
  rewrite fold_add_counts_exact; [|unfold nonneg; simpl; lia|done|].
  2:{ rewrite Hsum. unfold classified; simpl. lia. }
  assert (Hparts : forall f, (forall c, nonneg c -> 0 <= f c) ->
             0 <= sumZ f (map Service (workerMeasureResults s))).
  { intros f Hf. apply sumZ_nonneg. eapply Forall_impl; [exact HF|]. exact Hf. }
  pose proof (Hparts ReadyCount ltac:(unfold nonneg; intros; lia)).
  pose proof (Hparts NotReadyCount ltac:(unfold nonneg; intros; lia)).
  pose proof (Hparts NotFoundCount ltac:(unfold nonneg; intros; lia)).
  pose proof (Hparts FailCount ltac:(unfold nonneg; intros; lia)).
  assert (Hsplit : sumZ classified (map Service (workerMeasureResults s)) =
            sumZ ReadyCount (map Service (workerMeasureResults s)) +
            sumZ NotReadyCount (map Service (workerMeasureResults s)) +
            sumZ NotFoundCount (map Service (workerMeasureResults s)) +
            sumZ FailCount (map Service (workerMeasureResults s))).
  { clear. induction (workerMeasureResults s); simpl; [done|].
    unfold classified at 1. lia. }
  unfold classified in Hsum, Hsplit |- *. unfold total_of, nonneg; simpl.
  repeat match goal with
         | |- context [wrap64 ?z] =>
             lazymatch z with
             | context [wrap64 _] => fail
             | _ => rewrite (wrap64_small z) by (unfold minInt64, maxInt64 in *; lia)
             end
         end.
  unfold maxInt64 in *. lia.
Qed.

End Accounting.

(** ** Overall ready and routes ready *)

Lemma resolve_ready_durations cluster svc svcNs v sample v' :
  resolve cluster svc svcNs v = Val sample v' ->
  svcReadyDuration v' = svcRoutesReadyDuration v' /\
  svcReadyDuration v' = Sub (svcRoutesReady sample) (svcCreatedTime sample).
Proof.
  unfold_chain.
  destruct_chain ltac:(intros H; first [discriminate | injection H as <- <-; done]).
Qed.

Lemma resolve_sample_name cluster a b v sample v' :
  resolve cluster a b v = Val sample v' -> svc sample = a /\ svcNs sample = b.
Proof.
  unfold_chain.
  destruct_chain ltac:(intros H; first [discriminate | injection H as <- <-; done]).
Qed.

Lemma merge_one_overall final w :
  SvcReadySum (Sums final) = SvcRoutesReadySum (Sums final) ->
  SvcReadySum (Sums w) = SvcRoutesReadySum (Sums w) ->
  SvcReadySum (Sums (merge_one final w)) = SvcRoutesReadySum (Sums (merge_one final w)).
Proof. intros H1 H2. simpl. by rewrite H1, H2. Qed.

Lemma merge_overall ws :
  Forall overall_is_routes ws ->
  SvcReadySum (Sums (merge ws)) = SvcRoutesReadySum (Sums (merge ws)).
Proof.
  unfold merge. intros HF.
  assert (H0 : SvcReadySum (Sums zeroMeasureResult) = SvcRoutesReadySum (Sums zeroMeasureResult))
    by reflexivity.
  revert H0. generalize zeroMeasureResult.
  induction HF as [|w ws [Hw _] HF IH]; intros acc Hacc; simpl fold_left; [done|].
  apply IH. by apply merge_one_overall.
Qed.

Lemma fold_merge_Result ws acc : Result (fold_left merge_one ws acc) = Result acc.
Proof. revert acc. induction ws as [|w ws IH]; intros acc; simpl; [done|]. by rewrite IH. Qed.

(** ** Merging in another order *)

Lemma add_counts_swap acc x y :
  add_counts (add_counts acc x) y = add_counts (add_counts acc y) x.
Proof.
  unfold add_counts; simpl. rewrite !wrap64_add_l. f_equal; f_equal; lia.
Qed.

Lemma fold_add_counts_Permutation cs cs' :
  Permutation cs cs' ->
  forall acc, fold_left add_counts cs acc = fold_left add_counts cs' acc.
Proof.
  induction 1 as [|c cs cs' _ IH|c1 c2 cs|cs1 cs2 cs3 _ IH1 _ IH2]; intros acc; simpl.
  - done.
  - apply IH.
  - by rewrite add_counts_swap.
  - by rewrite IH1, IH2.
Qed.

Lemma fold_merge_SvcReadyTime ws acc :
  SvcReadyTime (fold_left merge_one ws acc) = SvcReadyTime acc ++ concat (map SvcReadyTime ws).
Proof.
  revert acc. induction ws as [|w ws IH]; intros acc; simpl.
  - by rewrite app_nil_r.
  - rewrite IH. simpl. by rewrite <- app_assoc.
Qed.

Lemma concat_Permutation {A} (ls ls' : list (list A)) :
  Permutation ls ls' -> Permutation (concat ls) (concat ls').
Proof.
  induction 1 as [|l ls ls' _ IH|l1 l2 ls|ls1 ls2 ls3 _ IH1 _ IH2]; simpl.
  - done.
  - by apply Permutation_app_head.
  - rewrite !app_assoc. apply Permutation_app_tail, Permutation_app_comm.
  - by rewrite IH1.
Qed.

(** C3 (amended).  Merging the per-worker results in another order of the
    workers gives the same four counters, and the same samples up to their
    order.  (The sums are [float64]s added in the order of the workers; the
    addition rounds, and another order can give other sums.) *)
Theorem C3_merge_order_keeps_counts_and_samples ws ws' :
  Permutation ws ws' ->
  Service (merge ws) = Service (merge ws') /\
  Permutation (SvcReadyTime (merge ws)) (SvcReadyTime (merge ws')).
Proof.
  intros Hperm. unfold merge. split.
  - rewrite !fold_merge_Service. apply fold_add_counts_Permutation.
    by apply Permutation_map.
  - rewrite !fold_merge_SvcReadyTime. simpl.
    by apply concat_Permutation, Permutation_map.
Qed.

(** ** The run as a whole *)

Section Run.

Variable Time_String : Time -> string.
Variable sort_Slice : (Row -> Row -> option bool) -> list Row -> option (list Row).
Variable stats_Median stats_Min stats_Max : list float -> float.
Variable stats_Percentile : list float -> float -> float.
Variable params : PerfParams.

Local Abbreviation body := (loopBody Time_String params).
Local Abbreviation run := (exec Time_String params).
Local Abbreviation reported :=
  (report sort_Slice stats_Median stats_Min stats_Max stats_Percentile params).
Local Abbreviation measure :=
  (MeasureServices Time_String sort_Slice stats_Median stats_Min stats_Max
     stats_Percentile params).

(** A run that returns a report went through a complete schedule. *)
Lemma MeasureServices_returns items Concurrency schedule r :
  measure items Concurrency schedule = ReturnNil r ->
  items <> [] /\
  exists s,
    run schedule (initial (Z.to_nat Concurrency) items) = Running s /\
    toSend s = [] /\ group s = 0 /\ reported s = ReturnNil r.
Proof.
  unfold MeasureServices. intros H.
  destruct (NewAutoscalingClient params); [discriminate|].
  destruct (NewServingClient params); [discriminate|].
  destruct (NewNetworkingClient params); [discriminate|].
  destruct (Concurrency <? 0); [discriminate|].
  destruct items as [|item items]; [discriminate|]. simpl in H.
  split; [done|].
  destruct (run schedule _) as [s| |] eqn:Hrun; try discriminate.
  destruct (toSend s) eqn:Hsend; [|discriminate].
  destruct (group s =? 0) eqn:Hg; [|discriminate].
  exists s. repeat split; try done. by apply Z.eqb_eq.
Qed.

(** The report carries the merged counters and their total. *)
Lemma report_counts s r :
  reported s = ReturnNil r ->
  Service (measureFinalResult r) = Service (merge (workerMeasureResults s)) /\
  total r = total_of (Service (merge (workerMeasureResults s))).
Proof.
  unfold report. intros H.
  destruct (sortSlice _ (rows s)); [|discriminate].
  destruct (sortSlice _ (rawRows s)); [|discriminate].
  simpl in H.
  destruct (0 <? ReadyCount _); injection H as <-; done.
Qed.

(** C1.  When [MeasureServices] returns its report - every worker has
    finished and the per-worker results are merged - the four counters of
    the merged result, [ReadyCount + NotReadyCount + NotFoundCount +
    FailCount], add up to the number of targets enumerated (which is then
    not zero), and so does the [total] the run prints.  Every iteration of
    a worker that does not panic adds one to one of the four counters of
    the worker and leaves the other three: every target is counted once,
    in one bucket.  This holds for every number of workers and every
    schedule of the goroutines. *)
Theorem C1_counts_add_up_to_targets items Concurrency schedule r :
  Z.of_nat (length items) <= maxInt64 ->
  measure items Concurrency schedule = ReturnNil r ->
  items <> [] /\
  ReadyCount (Service (measureFinalResult r)) +
  NotReadyCount (Service (measureFinalResult r)) +
  NotFoundCount (Service (measureFinalResult r)) +
  FailCount (Service (measureFinalResult r)) = Z.of_nat (length items) /\
  total r = Z.of_nat (length items) /\
  (forall index j w s w' s',
      body index j w s = Some (w', s') ->
      exists c, Service (currentMeasureResult w') = bump c (Service (currentMeasureResult w))).
Proof.
  intros Hlen H.
  apply MeasureServices_returns in H as (Hne & s & Hrun & Hsend & Hg & Hrep).
  split; [done|].
  apply report_counts in Hrep as [-> ->].
  pose proof (Inv_exec _ _ _ _ _ _ Hlen (Inv_initial _ _) Hrun) as HI.
  destruct (merge_counts _ _ Hlen HI Hsend Hg) as (Hc & Ht & _).
  split; [exact Hc|]. split; [exact Ht|].
  intros index j w s0 w' s' Hbody. by apply loopBody_effect in Hbody as [Hc' _].
Qed.

(** C8.  With the clients constructed and a number of workers that is not
    negative, an empty list of targets makes [MeasureServices] return the
    error "no service found to measure": whatever the goroutines would do
    (the schedule is not looked at), nothing is sent to a worker, the wait
    is not reached, and there is no report - no rows, no merged result, no
    statistics. *)
Theorem C8_empty_target_list_is_fatal Concurrency schedule :
  NewAutoscalingClient params = None ->
  NewServingClient params = None ->
  NewNetworkingClient params = None ->
  0 <= Concurrency ->
  measure [] Concurrency schedule = ReturnErr "no service found to measure".
Proof.
  intros H1 H2 H3 Hc. unfold MeasureServices. rewrite H1, H2, H3.
  destruct (Concurrency <? 0) eqn:E; [apply Z.ltb_lt in E; lia | reflexivity].
Qed.

(** C10.  An item of the queue that is not a pair (its length is not 2)
    does not panic the worker.  The iteration adds one to the worker's
    [FailCount] and to nothing else: the other counters, the sums, the
    samples and the worker's variables stay as they were, no row is added
    to either table, the result is stored in the worker's slot, and the
    wait group is told the item is done. *)
Theorem C10_malformed_item_counts_as_fail index j w s :
  length j <> 2%nat ->
  exists w' s',
    body index j w s = Some (w', s') /\
    FailCount (Service (currentMeasureResult w')) =
      incr (FailCount (Service (currentMeasureResult w))) /\
    ReadyCount (Service (currentMeasureResult w')) =
      ReadyCount (Service (currentMeasureResult w)) /\
    NotReadyCount (Service (currentMeasureResult w')) =
      NotReadyCount (Service (currentMeasureResult w)) /\
    NotFoundCount (Service (currentMeasureResult w')) =
      NotFoundCount (Service (currentMeasureResult w)) /\
    Sums (currentMeasureResult w') = Sums (currentMeasureResult w) /\
    SvcReadyTime (currentMeasureResult w') = SvcReadyTime (currentMeasureResult w) /\
    vars w' = vars w /\
    rows s' = rows s /\
    rawRows s' = rawRows s /\
    workerMeasureResults s' = <[index := currentMeasureResult w']> (workerMeasureResults s) /\
    group s' = group s - 1.
Proof.
  intros Hlen. unfold loopBody.
  destruct j as [|a [|b [|c j]]]; try (simpl in Hlen; lia);
    eexists _, _; (split; [reflexivity|]); simpl; done.
Qed.

(** C5.  When the merged [ReadyCount] is zero the run computes no
    statistic: every average, the median, minimum, maximum and percentiles
    of the result keep their zero value, nothing is divided, the run prints
    the counters only and writes no file.  When [ReadyCount] is positive,
    the average of each stage, and the overall average, is the sum of the
    stage divided by [float64(ReadyCount)]. *)
Theorem C5_statistics_only_when_ready items Concurrency schedule r :
  measure items Concurrency schedule = ReturnNil r ->
  (ReadyCount (Service (measureFinalResult r)) = 0 ->
   Result (measureFinalResult r) = zeroAverages /\
   printed r = CountsOnly /\ files r = []) /\
  (0 < ReadyCount (Service (measureFinalResult r)) ->
   let sums := Sums (measureFinalResult r) in
   let averages := Result (measureFinalResult r) in
   let average sum :=
     PrimFloat.div sum (float64_of_int (ReadyCount (Service (measureFinalResult r)))) in
   printed r = Measurement /\
   AverageSvcConfigurationReadySum averages = average (SvcConfigurationsReadySum sums) /\
   AverageRevisionReadySum averages = average (RevisionReadySum sums) /\
   AverageDeploymentCreatedSum averages = average (DeploymentCreatedSum sums) /\
   AveragePodScheduledSum averages = average (PodScheduledSum sums) /\
   AverageContainersReadySum averages = average (ContainersReadySum sums) /\
   AverageQueueProxyStartedSum averages = average (QueueProxyStartedSum sums) /\
   AverageUserContrainerStartedSum averages = average (UserContrainerStartedSum sums) /\
   AverageKpaActiveSum averages = average (KpaActiveSum sums) /\
   AverageSksReadySum averages = average (SksReadySum sums) /\
   AverageSksActivatorEndpointsPopulatedSum averages =
     average (SksActivatorEndpointsPopulatedSum sums) /\
   AverageSksEndpointsPopulatedSum averages = average (SksEndpointsPopulatedSum sums) /\
   AverageSvcRoutesReadySum averages = average (SvcRoutesReadySum sums) /\
   AverageIngressReadySum averages = average (IngressReadySum sums) /\
   AverageIngressNetworkConfiguredSum averages =
     average (IngressNetworkConfiguredSum sums) /\
   AverageIngressLoadBalancerReadySum averages =
     average (IngressLoadBalancerReadySum sums) /\
   OverallAverage averages = average (SvcReadySum sums)).
Proof.
  intros H. apply MeasureServices_returns in H as (_ & s & _ & _ & _ & H).
  unfold report in H.
  destruct (sortSlice _ (rows s)); [|discriminate].
  destruct (sortSlice _ (rawRows s)); [|discriminate].
  simpl in H.
  destruct (0 <? ReadyCount _) eqn:Hready; injection H as <-; simpl.
  - apply Z.ltb_lt in Hready. split; [lia|]. intros _. repeat split.
  - apply Z.ltb_ge in Hready. split; [|lia]. intros _.
    unfold merge. by rewrite fold_merge_Result.
Qed.

(** C7.  A target that is measured leaves the worker with its overall-ready
    duration equal to its routes-ready duration, both being the time of the
    [RoutesReady] condition minus the creation time of the service.  So,
    at every point of every run: each row of durations has the same text in
    its [overall_ready] and [route_ready] columns; in each worker's result
    the overall-ready sum is the routes-ready sum, and the samples kept for
    the percentiles add up to it; and the two sums are equal in the merged
    result. *)
Theorem C7_overall_ready_is_routes_ready Concurrency items schedule s :
  run schedule (initial Concurrency items) = Running s ->
  (forall svc svcNs v sample v',
      resolve (ClientSet params) svc svcNs v = Val sample v' ->
      svcReadyDuration v' = svcRoutesReadyDuration v' /\
      svcReadyDuration v' = Sub (svcRoutesReady sample) (svcCreatedTime sample)) /\
  Forall overall_cell_is_routes_cell (rows s) /\
  Forall overall_is_routes (workerMeasureResults s) /\
  SvcReadySum (Sums (merge (workerMeasureResults s))) =
    SvcRoutesReadySum (Sums (merge (workerMeasureResults s))).
Proof.
  intros Hrun.
  split; [intros *; apply resolve_ready_durations|].
  assert (HJ : Forall overall_cell_is_routes_cell (rows s) /\
               Forall overall_is_routes (workerMeasureResults s) /\
               Forall (fun w => overall_is_routes (currentMeasureResult w)) (workers s)).
  { revert Hrun.
    assert (H0 : Forall overall_cell_is_routes_cell (rows (initial Concurrency items)) /\
                 Forall overall_is_routes (workerMeasureResults (initial Concurrency items)) /\
                 Forall (fun w => overall_is_routes (currentMeasureResult w))
                   (workers (initial Concurrency items))).
    { simpl. split; [constructor|]. split; apply Forall_replicate; by split. }
    revert H0. generalize (initial Concurrency items) as s0. revert s.
    induction schedule as [|e schedule IH]; intros s s0 H0 Hrun; simpl in Hrun.
    - by injection Hrun as <-.
    - destruct (step _ _ e s0) as [s1| |] eqn:Hstep; try discriminate.
      apply (IH s s1); [|done]. clear IH Hrun.
      destruct H0 as (Hrows & Hslots & Hws).
      destruct e as [index|index]; simpl in Hstep.
      + destruct (toSend s0); [discriminate|].
        destruct (workers s0 !! index) as [w|] eqn:Hw; [|discriminate].
        destruct (receiving w); [discriminate|]. injection Hstep as <-; simpl.
        repeat split; try done. apply Forall_insert; [done|]. simpl.
        rewrite Forall_forall in Hws. apply Hws. by eapply list_elem_of_lookup_2.
      + destruct (workers s0 !! index) as [w|] eqn:Hw; [|discriminate].
        destruct (receiving w) as [j|]; [|discriminate].
        assert (Hcur : overall_is_routes (currentMeasureResult w)).
        { rewrite Forall_forall in Hws. apply Hws. by eapply list_elem_of_lookup_2. }
        destruct (body index j w s0) as [[w' s']|] eqn:Hbody; [|discriminate].
        injection Hstep as <-. simpl. unfold loopBody in Hbody.
        assert (Hskip : forall c v, skip index c v w s0 = (w', s') ->
                  Forall overall_cell_is_routes_cell (rows s') /\
                  Forall overall_is_routes (workerMeasureResults s') /\
                  Forall (fun w => overall_is_routes (currentMeasureResult w))
                    (<[index := w']> (workers s'))).
        { intros c v Hs. injection Hs as <- <-. simpl.
          repeat split; try done; apply Forall_insert; done. }
        destruct j as [|a [|b [|? ?]]];
          try (apply (Hskip Fail (vars w)); congruence).
        destruct (resolve _ a b (vars w)) as [sample v|c v|] eqn:Hres; [| |discriminate].
        * apply resolve_ready_durations in Hres as [Heq _].
          injection Hbody as <- <-. destruct Hcur as [Hsum Hsamples]. simpl.
          assert (Hnew : overall_is_routes
                    (mkMeasureResult (add_sample v sample (Sums (currentMeasureResult w)))
                       (Result (currentMeasureResult w))
                       (bump Ready (Service (currentMeasureResult w)))
                       (Knative (currentMeasureResult w))
                       (SvcReadyTime (currentMeasureResult w)
                          ++ [Seconds (svcReadyDuration v)]))).
          { split; simpl.
            - by rewrite Hsum, Heq.
            - rewrite fold_left_app. simpl. by rewrite Hsamples, Heq. }
          repeat split; try (apply Forall_insert; done).
          apply Forall_app. split; [done|]. constructor; [|constructor].
          split; simpl; [by eexists|]. by rewrite Heq.
        * apply (Hskip c v). congruence. }
  destruct HJ as (Hrows & Hslots & _).
  repeat split; try done. by apply merge_overall.
Qed.

End Run.

(** ** [Split] and [ParseInt] *)

Lemma Split_nonempty s sep : Split s sep <> [].
Proof.
  destruct s as [|c s]; simpl; [done|].
  destruct (Ascii.eqb c sep); [done|]. by destruct (Split s sep).
Qed.

Lemma Split_without s sep : mentions sep s = false -> Split s sep = [s].
Proof.
  induction s as [|c s IH]; simpl; [done|]. intros H.
  apply orb_false_iff in H as [Hc Hs]. by rewrite Hc, (IH Hs).
Qed.

Lemma Split_with s sep :
  mentions sep s = true -> exists first second segments, Split s sep = first :: second :: segments.
Proof.
  induction s as [|c s IH]; simpl; [done|]. intros H.
  destruct (Ascii.eqb c sep) eqn:Hc.
  - pose proof (Split_nonempty s sep). destruct (Split s sep) as [|second segments]; [done|].
    by eexists _, _, _.
  - destruct (IH H) as (first & second & segments & ->). by eexists _, _, _.
Qed.

Lemma sortKey_without name cells : mentions "-" name = false -> sortKey (name :: cells) = None.
Proof. intros H. unfold sortKey. simpl. by rewrite (Split_without _ _ H). Qed.

Lemma sortKey_with name cells :
  mentions "-" name = true ->
  exists segment,
    Split name "-" !! 1%nat = Some segment /\
    sortKey (name :: cells) = Some (fst (ParseInt segment)).
Proof.
  intros H. destruct (Split_with _ _ H) as (first & second & segments & Hs).
  exists second. unfold sortKey. simpl. by rewrite Hs.
Qed.

(** The value [ParseInt] returns beside each error. *)
Lemma ParseInt_error_value s :
  match snd (ParseInt s) with
  | Some ErrSyntax => fst (ParseInt s) = 0
  | Some ErrRange => fst (ParseInt s) = maxInt64 \/ fst (ParseInt s) = minInt64
  | None => True
  end.
Proof.
  unfold ParseInt. destruct s as [|c s]; [done|].
  destruct (ParseUint _) as [un [[]|]]; simpl; [done|..];
    destruct (Ascii.eqb c "-"); simpl; destruct (2 ^ 63 <=? un); simpl;
    try destruct (2 ^ 63 <? un); simpl; auto.
Qed.

Lemma digit_of_range c d : digit_of c = Some d -> 0 <= d <= 9.
Proof.
  unfold digit_of. cbv zeta. set (n := Z.of_N (N_of_ascii c)).
  destruct ((48 <=? n) && (n <=? 57)) eqn:H; [|done].
  apply andb_true_iff in H as [H1 H2]. apply Z.leb_le in H1, H2.
  intros [= <-]. clearbody n. lia.
Qed.

Lemma parseUint_loop_syntax s n :
  all_digits s = false ->
  (n + 1) * 10 ^ Z.of_nat (String.length s) <= 10 ^ 19 ->
  0 <= n ->
  parseUint_loop s n = (0, Some ErrSyntax).
Proof.
  revert n. induction s as [|c s IH]; intros n Hd Hn H0; [done|].
  simpl in Hd. unfold is_digit in Hd. simpl parseUint_loop.
  destruct (digit_of c) as [d|] eqn:Hc; [|done]. simpl in Hd.
  apply digit_of_range in Hc.
  assert (Hlen : 1 <= Z.of_nat (String.length s)).
  { destruct s; [done|]. simpl. lia. }
  simpl String.length in Hn. rewrite Nat2Z.inj_succ, Z.pow_succ_r in Hn by lia.
  assert (Hp : 10 <= 10 ^ Z.of_nat (String.length s)).
  { change 10 with (10 ^ 1) at 1. apply Z.pow_le_mono_r; lia. }
  change (10 ^ 19) with 10000000000000000000 in *.
  assert (Hsmall : n + 1 <= 100000000000000000) by nia.
  unfold maxUint64.
  change ((2 ^ 64 - 1) / 10 + 1) with 1844674407370955162.
  change (2 ^ 64 - 1) with 18446744073709551615.
  destruct (_ <=? n) eqn:E1; [apply Z.leb_le in E1; lia|].
  destruct (_ <? n * 10 + d) eqn:E2; [apply Z.ltb_lt in E2; lia|].
  apply IH; [done| |lia]. nia.
Qed.

(** A segment of at most 19 bytes that does not have the syntax of an
    integer is a syntax error (a longer one can overflow before the byte
    that is no digit is reached). *)
Lemma ParseInt_syntax_error s :
  integer_syntax s = false -> (String.length s <= 19)%nat ->
  ParseInt s = (0, Some ErrSyntax).
Proof.
  destruct s as [|c s]; [done|]. unfold integer_syntax, ParseInt. intros Hs Hlen.
  assert (Hloop : forall digits, digits_syntax digits = false ->
            (String.length digits <= 19)%nat -> ParseUint digits = (0, Some ErrSyntax)).
  { intros [|c' digits] Hd Hl; [done|]. unfold ParseUint. apply parseUint_loop_syntax.
    - exact Hd.
    - rewrite Z.mul_1_l. apply Z.pow_le_mono_r; lia.
    - lia. }
  destruct (Ascii.eqb c "+" || Ascii.eqb c "-") eqn:Hsign.
  - replace (Ascii.eqb c "+" || Ascii.eqb c "-") with true in Hs by done.
    rewrite Hloop; [done|done|simpl in Hlen; lia].
  - rewrite Hloop; [done|done|done].
Qed.

(** *** A name made of a prefix, a dash and a number *)

Lemma uint_value_acc d acc : Z.pos (Pos.of_uint_acc d acc) = uint_value d (Z.pos acc).
Proof.
  revert acc. induction d; intros acc; cbn [Pos.of_uint_acc uint_value]; [done|..];
    rewrite IHd; f_equal; lia.
Qed.

Lemma uint_value_of_uint d : Z.of_N (Pos.of_uint d) = uint_value d 0.
Proof.
  induction d; cbn [Pos.of_uint uint_value Z.of_N]; [done|done|..];
    rewrite uint_value_acc; f_equal.
Qed.

Lemma uint_value_le d acc : 0 <= acc -> acc <= uint_value d acc.
Proof.
  revert acc. induction d; intros acc H; simpl; [lia|..];
    (etransitivity; [|apply IHd]; lia).
Qed.

Lemma parseUint_loop_digits d acc :
  0 <= acc -> uint_value d acc <= maxInt64 ->
  parseUint_loop (NilEmpty.string_of_uint d) acc = (uint_value d acc, None).
Proof.
  unfold maxInt64. change (2 ^ 63 - 1) with 9223372036854775807.
  revert acc. induction d; intros acc H0 Hle; simpl NilEmpty.string_of_uint;
    [done|..]; cbn [parseUint_loop uint_value] in *;
    match goal with
    | |- context [digit_of ?c] =>
        let k := eval vm_compute in (digit_of c) in change (digit_of c) with k
    end; cbv iota beta;
    unfold maxUint64;
    change ((2 ^ 64 - 1) / 10 + 1) with 1844674407370955162;
    change (2 ^ 64 - 1) with 18446744073709551615;
    match goal with
    | H : uint_value d ?a <= _ |- _ =>
        pose proof (uint_value_le d a ltac:(lia)) as Hmono
    end;
    (destruct (_ <=? acc) eqn:E1; [apply Z.leb_le in E1; lia|]);
    (destruct (_ <? _) eqn:E2; [apply Z.ltb_lt in E2; lia|]);
    rewrite <- IHd by lia; f_equal; lia.
Qed.

Lemma string_of_uint_digits d : mentions "-" (NilEmpty.string_of_uint d) = false.
Proof. induction d; simpl; done. Qed.

(** What [strconv.Itoa] prints, [ParseInt] reads back. *)
Lemma ParseInt_Itoa n : 0 <= n <= maxInt64 -> ParseInt (Itoa n) = (n, None).
Proof.
  intros [H0 Hmax]. destruct n as [|p|p]; [done| |lia].
  unfold Itoa. simpl Z.to_int. simpl NilZero.string_of_int.
  pose proof (Unsigned.to_uint_nonnil p) as Hnil.
  pose proof (Unsigned.of_to p) as Hp.
  assert (Hvalue : uint_value (Pos.to_uint p) 0 = Z.pos p).
  { by rewrite <- uint_value_of_uint, Hp. }
  assert (Hloop : parseUint_loop (NilEmpty.string_of_uint (Pos.to_uint p)) 0
                  = (Z.pos p, None)).
  { rewrite parseUint_loop_digits; [by rewrite Hvalue|done|by rewrite Hvalue]. }
  unfold NilZero.string_of_uint.
  destruct (Pos.to_uint p) as [|d|d|d|d|d|d|d|d|d|d] eqn:Hd; [done|..];
    simpl NilEmpty.string_of_uint in *; unfold ParseInt, ParseUint;
    cbn [Ascii.eqb Bool.eqb orb negb andb]; rewrite Hloop;
    unfold maxInt64 in Hmax;
    (destruct (2 ^ 63 <=? Z.pos p) eqn:E; [apply Z.leb_le in E; lia|done]).
Qed.

Lemma Itoa_digits n : 0 <= n -> mentions "-" (Itoa n) = false.
Proof.
  intros H. destruct n as [|p|p]; [done| |lia].
  unfold Itoa. simpl Z.to_int. simpl NilZero.string_of_int. unfold NilZero.string_of_uint.
  pose proof (string_of_uint_digits (Pos.to_uint p)). by destruct (Pos.to_uint p).
Qed.

Lemma Split_prefix prefix rest :
  mentions "-" prefix = false ->
  Split (prefix +:+ "-" +:+ rest) "-" = prefix :: Split rest "-".
Proof.
  induction prefix as [|c prefix IH]; simpl; [done|]. intros H.
  apply orb_false_iff in H as [Hc Hp]. by rewrite Hc, (IH Hp).
Qed.

(** The name the enumeration gives the [n]-th service of a prefix without
    "-", [fmt.Sprintf("%s-%s", prefix, strconv.Itoa(n))], is sorted by
    [n]. *)
Lemma sortKey_prefix_number prefix n cells :
  mentions "-" prefix = false -> 0 <= n <= maxInt64 ->
  sortKey ((prefix +:+ "-" +:+ Itoa n) :: cells) = Some n.
Proof.
  intros Hp Hn. unfold sortKey. simpl.
  rewrite (Split_prefix _ _ Hp), (Split_without (Itoa n)) by (apply Itoa_digits; lia).
  simpl. by rewrite (ParseInt_Itoa n Hn).
Qed.

(** C9 (amended).  The comparison of [sortSlice] takes the second
    segment of each service name split on "-".  When one of the two names
    has no "-", it indexes the one-element result of the split at 1: a
    panic.  Otherwise it returns whether the key of the first row is
    smaller, the key being what [ParseInt] returns for the segment, its
    error dropped: 0 on a syntax error - which is what a segment of at most
    19 bytes that is not an integer gives - and the largest or smallest
    [int64] on a range error. *)
Theorem C9_comparator_splits_on_dash ri rj name_i name_j :
  ri !! 0%nat = Some name_i ->
  rj !! 0%nat = Some name_j ->
  (mentions "-" name_i = false \/ mentions "-" name_j = false -> less ri rj = None) /\
  (mentions "-" name_i = true -> mentions "-" name_j = true ->
   exists segment_i segment_j,
     Split name_i "-" !! 1%nat = Some segment_i /\
     Split name_j "-" !! 1%nat = Some segment_j /\
     less ri rj = Some (fst (ParseInt segment_i) <? fst (ParseInt segment_j))) /\
  (forall segment,
      (snd (ParseInt segment) = Some ErrSyntax -> fst (ParseInt segment) = 0) /\
      (integer_syntax segment = false -> (String.length segment <= 19)%nat ->
       ParseInt segment = (0, Some ErrSyntax)) /\
      (snd (ParseInt segment) = Some ErrRange ->
       fst (ParseInt segment) = maxInt64 \/ fst (ParseInt segment) = minInt64)).
Proof.
  intros Hi Hj. unfold less. rewrite Hi, Hj. simpl. repeat split.
  - intros [H|H].
    + by rewrite (Split_without _ _ H).
    + rewrite (Split_without _ _ H). simpl. by destruct (Split name_i "-" !! 1%nat).
  - intros H1 H2.
    destruct (Split_with _ _ H1) as (f1 & s1 & r1 & ->).
    destruct (Split_with _ _ H2) as (f2 & s2 & r2 & ->).
    by exists s1, s2.
  - intros H. pose proof (ParseInt_error_value segment) as Hv. by rewrite H in Hv.
  - apply ParseInt_syntax_error.
  - intros H. pose proof (ParseInt_error_value segment) as Hv. by rewrite H in Hv.
Qed.

(** ** Sorting the tables *)

Lemma less_sortKey ri rj :
  less ri rj = ki ← sortKey ri; kj ← sortKey rj; Some (ki <? kj).
Proof.
  unfold less, sortKey.
  destruct (ri !! 0%nat) as [name_i|]; simpl; [|done].
  destruct (Split name_i "-" !! 1%nat); simpl; [|done].
  destruct (rj !! 0%nat) as [name_j|]; simpl; [|done].
  by destruct (Split name_j "-" !! 1%nat).
Qed.

Lemma less_key_of a b :
  sortable a -> sortable b -> less a b = Some (key_of a <? key_of b).
Proof.
  unfold sortable, key_of. intros [ka Ha] [kb Hb].
  by rewrite less_sortKey, Ha, Hb.
Qed.

Section InsertionSort.

Variable cmp : Row -> Row -> option bool.
Variable key : Row -> Z.

Local Abbreviation descending := (StronglySorted (fun a b => key b <= key a)).
Local Abbreviation ascending := (StronglySorted (fun a b => key a <= key b)).

Lemma sink_sorted x sorted :
  (forall y, y ∈ sorted -> cmp x y = Some (key x <? key y)) ->
  descending sorted ->
  exists sorted',
    Scenario.sink cmp x sorted = Some sorted' /\
    Permutation (x :: sorted) sorted' /\ descending sorted'.
Proof.
  induction sorted as [|y sorted IH]; intros Hcmp Hs; simpl.
  - exists [x]. repeat split; [done|]. repeat constructor.
  - rewrite (Hcmp y) by left. simpl.
    apply StronglySorted_cons in Hs as [Hy Hs].
    destruct (key x <? key y) eqn:Hlt.
    + apply Z.ltb_lt in Hlt.
      destruct IH as (sorted' & -> & Hperm & Hs'); [intros; apply Hcmp; by right|done|].
      exists (y :: sorted'). simpl. repeat split.
      * rewrite <- Hperm. apply perm_swap.
      * apply StronglySorted_cons. split; [|done].
        rewrite <- Hperm. constructor; [lia|done].
    + apply Z.ltb_ge in Hlt. exists (x :: y :: sorted). repeat split; [done|].
      apply StronglySorted_cons. split.
      * constructor; [done|]. eapply Forall_impl; [exact Hy|]. simpl. intros; lia.
      * by apply StronglySorted_cons.
Qed.

Lemma sink_all table sorted :
  (forall a b, a ∈ sorted ++ table -> b ∈ sorted ++ table ->
               cmp a b = Some (key a <? key b)) ->
  descending sorted ->
  exists sorted',
    foldl (fun acc x => acc ← acc; Scenario.sink cmp x acc) (Some sorted) table
      = Some sorted' /\
    Permutation (sorted ++ table) sorted' /\ descending sorted'.
Proof.
  revert sorted. induction table as [|x table IH]; intros sorted Hcmp Hs; simpl.
  - exists sorted. by rewrite app_nil_r.
  - destruct (sink_sorted x sorted) as (sorted1 & -> & Hperm & Hs1); [|done|].
    { intros y Hy. apply Hcmp; rewrite elem_of_app, elem_of_cons; auto. }
    destruct (IH sorted1) as (sorted' & Hfold & Hperm' & Hs'); [|done|].
    { assert (Hmem : forall a, a ∈ sorted1 ++ table -> a ∈ sorted ++ x :: table).
      { intros a. rewrite !elem_of_app, <- Hperm, !elem_of_cons. tauto. }
      intros a b Ha Hb. apply Hcmp; by apply Hmem. }
    exists sorted'. repeat split; [done| |done].
    rewrite <- Hperm', <- Hperm. symmetry. apply Permutation_middle.
Qed.

Lemma descending_reverse l : descending l -> ascending (reverse l).
Proof.
  induction l as [|x l IH]; intros Hs; [constructor|].
  apply StronglySorted_cons in Hs as [Hx Hs]. rewrite reverse_cons.
  apply StronglySorted_app_2; [|by apply IH|repeat constructor].
  intros a b Ha Hb. apply list_elem_of_singleton in Hb as ->.
  rewrite elem_of_reverse in Ha. rewrite Forall_forall in Hx. by apply Hx.
Qed.

End InsertionSort.

Lemma insertionSort_contract : sort_Slice_contract Scenario.insertionSort.
Proof.
  intros cmp key table Hcmp. unfold Scenario.insertionSort.
  destruct (sink_all cmp key table []) as (sorted & -> & Hperm & Hs);
    [done|constructor|].
  exists (reverse sorted). simpl. repeat split.
  - by rewrite reverse_Permutation, <- Hperm.
  - by apply descending_reverse.
Qed.

Lemma backwardSort_contract : sort_Slice_contract Scenario.backwardSort.
Proof.
  intros cmp key table Hcmp. unfold Scenario.backwardSort.
  destruct (insertionSort_contract cmp key (reverse table)) as (sorted & Hs & Hperm & Hsorted).
  { intros a b Ha Hb. apply Hcmp; by rewrite <- elem_of_reverse. }
  exists sorted. repeat split; [done| |done].
  by rewrite <- Hperm, reverse_Permutation.
Qed.

Section SortSlice.

Variable sort_Slice : (Row -> Row -> option bool) -> list Row -> option (list Row).
Hypothesis sort_Slice_sorts : sort_Slice_contract sort_Slice.

Lemma sortSlice_sorted table :
  Forall sortable table ->
  exists sorted,
    sortSlice sort_Slice table = Some sorted /\
    Permutation table sorted /\
    StronglySorted (fun a b => key_of a <= key_of b) sorted.
Proof.
  intros Hk. apply sort_Slice_sorts. intros a b Ha Hb.
  rewrite Forall_forall in Hk. apply less_key_of; by apply Hk.
Qed.

Lemma sortSlice_unique table expected :
  Forall sortable table ->
  (forall a b, a ∈ table -> b ∈ table -> key_of a = key_of b -> a = b) ->
  Permutation table expected ->
  StronglySorted (fun a b => key_of a <= key_of b) expected ->
  sortSlice sort_Slice table = Some expected.
Proof.
  intros Hk Hinj Hperm Hexp.
  destruct (sortSlice_sorted table Hk) as (sorted & -> & Hperm' & Hs).
  f_equal. apply (StronglySorted_unique_strong (fun a b => key_of a <= key_of b));
    [|done|done|by rewrite <- Hperm'].
  intros a b Ha Hb Hab Hba. apply Hinj; [by rewrite Hperm'|by rewrite Hperm|lia].
Qed.


End SortSlice.

(** ** A run that returns *)

Section Completion.

Variable Time_String : Time -> string.
Variable sort_Slice : (Row -> Row -> option bool) -> list Row -> option (list Row).
Variable stats_Median stats_Min stats_Max : list float -> float.
Variable stats_Percentile : list float -> float -> float.
Variable params : PerfParams.

Hypothesis sort_Slice_sorts : sort_Slice_contract sort_Slice.

Local Abbreviation body := (loopBody Time_String params).
Local Abbreviation run := (exec Time_String params).
Local Abbreviation measure :=
  (MeasureServices Time_String sort_Slice stats_Median stats_Min stats_Max
     stats_Percentile params).

(** On a platform whose objects report their conditions, no worker
    panics, and the schedule in which the first worker takes the targets one
    after the other brings the main goroutine past [group.Wait()]. *)
Lemma loopBody_returns index j w s :
  conditions_reported (ClientSet params) -> is_Some (body index j w s).
Proof.
  intros Hwf. unfold loopBody.
  destruct j as [|a [|b [|? ?]]]; try by eexists.
  pose proof (resolve_no_crash (ClientSet params) a b (vars w) Hwf) as Hres.
  destruct (resolve _ a b (vars w)); [by eexists|by eexists|done].
Qed.

Lemma loopBody_rows index j w s w' s' :
  dashed j -> body index j w s = Some (w', s') ->
  Forall sortable (rows s) -> Forall sortable (rawRows s) ->
  Forall sortable (rows s') /\ Forall sortable (rawRows s').
Proof.
  unfold loopBody. intros Hj H Hrows Hraw.
  destruct j as [|a [|b [|? ?]]]; try (injection H as <- <-; done).
  destruct (resolve _ a b (vars w)) as [sample v|c v|] eqn:Hres;
    [|injection H as <- <-; done|done].
  apply resolve_sample_name in Hres as [Hname _].
  pose proof (Hj a b eq_refl) as Hdash.
  assert (Hsortable : forall cells, sortable (a :: cells)).
  { intros cells. destruct (sortKey_with a cells Hdash) as (seg & _ & Hkey).
    unfold sortable. rewrite Hkey. by eexists. }
  injection H as <- <-. simpl.
  split; (apply Forall_app; split; [done|]; apply Forall_cons; split; [|by constructor]).
  - unfold row_of. rewrite Hname. apply Hsortable.
  - unfold rawRow_of. rewrite Hname. apply Hsortable.
Qed.

Lemma one_by_one_completes items s w :
  conditions_reported (ClientSet params) ->
  Forall dashed items ->
  Forall sortable (rows s) -> Forall sortable (rawRows s) ->
  toSend s = items -> workers s !! 0%nat = Some w -> receiving w = None ->
  exists s',
    run (Scenario.one_by_one (length items)) s = Running s' /\
    toSend s' = [] /\ group s' = group s /\
    Forall sortable (rows s') /\ Forall sortable (rawRows s').
Proof.
  intros Hwf Hitems. revert s w.
  induction Hitems as [|item items Hitem Hitems IH]; intros s w Hrows Hraw Hsend Hw Hidle.
  - exists s. by repeat split.
  - unfold Scenario.one_by_one in *. simpl length. simpl replicate. simpl concat.
    cbn [exec step]. rewrite Hsend, Hw, Hidle.
    set (s1 := mkState _ _ _ _ _ _). cbn [exec step workers s1].
    assert (Hlt : (0 < length (workers s))%nat) by (by eapply lookup_lt_Some).
    rewrite list_lookup_insert_eq by done. cbn [receiving].
    destruct (loopBody_returns 0 item
                (mkWorker (vars w) (currentMeasureResult w) (Some item)) s1 Hwf)
      as [[w' s2] Hbody].
    rewrite Hbody.
    destruct (loopBody_rows _ _ _ _ _ _ Hitem Hbody) as [Hrows2 Hraw2]; [done|done|].
    apply loopBody_effect in Hbody as (_ & Hidle' & Hsend' & Hg & Hws & _).
    destruct (IH (set_worker 0 w' s2) w') as (s' & Hrun & Hdone & Hgroup & Hr & Hrr).
    + done.
    + done.
    + simpl. by rewrite Hsend'.
    + simpl. rewrite Hws. simpl. apply list_lookup_insert_eq. by rewrite length_insert.
    + done.
    + exists s'. split; [done|]. split; [done|]. split; [|done].
      rewrite Hgroup. simpl. rewrite Hg. simpl. lia.
Qed.

Lemma every_run_can_complete Concurrency items :
  conditions_reported (ClientSet params) ->
  Forall dashed items ->
  exists s,
    run (Scenario.one_by_one (length items)) (initial (S Concurrency) items) = Running s /\
    toSend s = [] /\ group s = 0 /\
    Forall sortable (rows s) /\ Forall sortable (rawRows s).
Proof.
  intros Hwf Hitems.
  destruct (one_by_one_completes items (initial (S Concurrency) items)
              (mkWorker zeroVars zeroMeasureResult None) Hwf Hitems)
    as (s & Hrun & Hsend & Hg & Hsorted); try done.
  by exists s.
Qed.

(** With its clients constructed, at least one worker, and targets whose
    service names have a "-", [MeasureServices] returns its report on a
    platform whose objects report their conditions. *)
Lemma MeasureServices_can_return Concurrency items :
  NewAutoscalingClient params = None ->
  NewServingClient params = None ->
  NewNetworkingClient params = None ->
  conditions_reported (ClientSet params) ->
  items <> [] -> Forall dashed items ->
  exists r,
    measure items (Z.of_nat (S Concurrency)) (Scenario.one_by_one (length items))
      = ReturnNil r.
Proof.
  intros H1 H2 H3 Hwf Hne Hitems. unfold MeasureServices. rewrite H1, H2, H3.
  destruct (Z.of_nat (S Concurrency) <? 0) eqn:E; [apply Z.ltb_lt in E; lia|].
  assert (Hlen : (length items =? 0)%nat = false) by (by destruct items).
  rewrite Hlen, Nat2Z.id.
  destruct (every_run_can_complete Concurrency items Hwf Hitems)
    as (s & -> & -> & -> & Hrows & Hraw).
  simpl. unfold report.
  destruct (sortSlice_sorted sort_Slice sort_Slice_sorts _ Hrows) as (sorted & -> & _).
  destruct (sortSlice_sorted sort_Slice sort_Slice_sorts _ Hraw) as (rawSorted & -> & _).
  simpl. destruct (0 <? _); by eexists.
Qed.

End Completion.

(** * The engine on the platform of [Scenario] *)

Import Scenario.

(** The block on the pods, given no pod: the iteration goes on, the pod
    timestamps are zero, and the four pod durations are not assigned. *)
Lemma measurePod_no_pod v : measurePod [] v = Val zeroPodTimes v.
Proof. reflexivity. Qed.

(** C2 (the code where the claim fails).  [svc-4] is ready and its
    revision has no pod.  When a worker measures it after [svc-1], whose pod
    was scheduled after 2s, had its containers ready after 4s and started
    after 3s, the row of [svc-4] carries these four durations of [svc-1],
    beside pod timestamps that are zero; measured first, it carries zeros. *)
Theorem C2_no_pod_keeps_durations_of_earlier_target :
  Pods_List cluster "ns" "serving.knative.dev/revision=svc-4-00001" = Got [] /\
  map name_and_namespace
    (durations_written (run [["svc-1"; "ns"]; ["svc-4"; "ns"]] 1 (one_by_one 2)))
    = [["svc-1"; "ns"]; ["svc-4"; "ns"]] /\
  map pod_columns
    (durations_written (run [["svc-1"; "ns"]; ["svc-4"; "ns"]] 1 (one_by_one 2)))
    = [["2"; "4"; "3"; "3"]; ["2"; "4"; "3"; "3"]] /\
  map (fun row => take 5 (drop 7 row))
    (timestamps_written (run [["svc-1"; "ns"]; ["svc-4"; "ns"]] 1 (one_by_one 2)))
    = [["63700000001"; "63700000003"; "63700000005"; "63700000004"; "63700000004"];
       ["0"; "0"; "0"; "0"; "0"]] /\
  map pod_columns
    (durations_written (run [["svc-4"; "ns"]; ["svc-1"; "ns"]] 1 (one_by_one 2)))
    = [["2"; "4"; "3"; "3"]; ["0"; "0"; "0"; "0"]].
Proof. repeat split; vm_compute; reflexivity. Qed.

(** C3 (counterexample).  The results of three workers of one run, merged
    in the order of the workers and in the reverse order, give two
    different sums of the load-balancer-ready durations. *)
Lemma C3_sums_depend_on_worker_order :
  Permutation three_workers (reverse three_workers) /\
  Sums (merge three_workers) <> Sums (merge (reverse three_workers)).
Proof.
  split; [symmetry; apply reverse_Permutation|].
  intros H. apply (f_equal (fun sums => Prim2SF (IngressLoadBalancerReadySum sums))) in H.
  vm_compute in H. discriminate.
Qed.

Lemma C3_merge_order_keeps_counts_and_samples_witness :
  Permutation three_workers (reverse three_workers) /\
  Service (merge three_workers) = Service (merge (reverse three_workers)) /\
  Permutation (SvcReadyTime (merge three_workers))
    (SvcReadyTime (merge (reverse three_workers))).
Proof.
  assert (H : Permutation three_workers (reverse three_workers))
    by (symmetry; apply reverse_Permutation).
  split; [exact H|].
  exact (C3_merge_order_keeps_counts_and_samples three_workers (reverse three_workers) H).
Defined.



(** C9 (counterexample).  The second segment of this name is not an
    integer, and its row is not sorted with key 0: the digits overflow
    before [ParseInt] reaches the "x", and the key is the largest
    [int64]. *)
Lemma C9_key_of_overflowing_segment :
  Split "svc-99999999999999999999x" "-" !! 1%nat = Some "99999999999999999999x" /\
  integer_syntax "99999999999999999999x" = false /\
  ParseInt "99999999999999999999x" = (maxInt64, Some ErrRange) /\
  sortKey ["svc-99999999999999999999x"; "ns"] = Some 9223372036854775807 /\
  less ["svc-7"; "ns"] ["svc-99999999999999999999x"; "ns"] = Some true.
Proof. repeat split; vm_compute; reflexivity. Qed.

Lemma C9_comparator_splits_on_dash_witness :
  less ["svc"; "ns"] ["svc-1"; "ns"] = None /\
  less ["svc-2"; "ns"] ["svc-x1"; "ns"] = Some (2 <? 0) /\
  ParseInt "x1" = (0, Some ErrSyntax).
Proof.
  destruct (C9_comparator_splits_on_dash ["svc"; "ns"] ["svc-1"; "ns"] "svc" "svc-1"
              eq_refl eq_refl) as (H1 & _ & _).
  destruct (C9_comparator_splits_on_dash ["svc-2"; "ns"] ["svc-x1"; "ns"] "svc-2" "svc-x1"
              eq_refl eq_refl) as (_ & H2 & H3).
  split; [apply H1; by left|].
  destruct (H2 eq_refl eq_refl) as (si & sj & Hi & Hj & Hless).
  injection Hi as <-. injection Hj as <-.
  destruct (H3 "x1") as (_ & Hsyntax & _).
  rewrite (Hsyntax eq_refl) in Hless |- *; [|simpl; lia|simpl; lia].
  split; [exact Hless|reflexivity].
Defined.

Lemma C1_counts_add_up_to_targets_witness :
  match
    run [["svc-1"; "ns"]; ["svc-2"; "ns"]; ["svc-3"; "ns"]] 2
      [Receive 0; Receive 1; Finish 1; Receive 1; Finish 0; Finish 1]%nat
  with
  | ReturnNil r =>
      Service (measureFinalResult r) = mkCounts 1 1 1 0 /\
      ReadyCount (Service (measureFinalResult r)) +
      NotReadyCount (Service (measureFinalResult r)) +
      NotFoundCount (Service (measureFinalResult r)) +
      FailCount (Service (measureFinalResult r)) = 3 /\
      total r = 3
  | _ => False
  end.
Proof.
  destruct (run _ 2 _) as [msg|r| |] eqn:E; try (vm_compute in E; discriminate).
  split.
  - vm_compute in E. injection E as <-. reflexivity.
  - assert (Hlen : Z.of_nat (length [["svc-1"; "ns"]; ["svc-2"; "ns"]; ["svc-3"; "ns"]])
                   <= maxInt64) by (vm_compute; discriminate).
    destruct (C1_counts_add_up_to_targets seconds_String insertionSort no_stats no_stats
                no_stats no_percentile params _ 2 _ r Hlen E)
      as (_ & Hsum & Htotal & _).
    split; [exact Hsum|exact Htotal].
Defined.

Lemma C8_empty_target_list_is_fatal_witness :
  run [] 2 [Receive 0]%nat = ReturnErr "no service found to measure".
Proof.
  apply (C8_empty_target_list_is_fatal seconds_String insertionSort no_stats no_stats no_stats
           no_percentile params 2 [Receive 0%nat]); [reflexivity..|lia].
Defined.

Lemma C10_malformed_item_counts_as_fail_witness :
  exists w' s',
    loopBody seconds_String params 0 ["svc-1"]
      (mkWorker zeroVars zeroMeasureResult (Some ["svc-1"])) (initial 1 []) = Some (w', s') /\
    Service (currentMeasureResult w') = mkCounts 0 0 0 1 /\
    rows s' = [] /\ group s' = -1.
Proof.
  destruct (C10_malformed_item_counts_as_fail seconds_String params 0 ["svc-1"]
              (mkWorker zeroVars zeroMeasureResult (Some ["svc-1"])) (initial 1 []))
    as (w' & s' & Hbody & Hfail & Hready & Hnotready & Hnotfound & _ & _ & _ & Hrows & _ & _ & Hgroup).
  { simpl. lia. }
  exists w', s'. split; [exact Hbody|]. split; [|split; [exact Hrows|exact Hgroup]].
  destruct (Service (currentMeasureResult w')); simpl in *. by subst.
Defined.

(** The objects of the platform report their conditions. *)
Lemma cluster_reports_conditions : conditions_reported cluster.
Proof.
  split; intros ns name o; simpl;
    repeat match goal with
           | |- context [if ?b then _ else _] => destruct b
           end;
    intros H; try discriminate; injection H as <-; simpl; intros;
    repeat split; try discriminate; try by eexists.
  all: repeat constructor; by eexists.
Qed.

Lemma C4_classification_of_lookup_errors_witness :
  resolve cluster "svc-2" "ns" zeroVars = Stop NotFound zeroVars /\
  resolve cluster "svc-5" "ns" zeroVars = Stop Fail zeroVars /\
  resolve cluster "svc-6" "ns" zeroVars = Stop NotReady zeroVars /\
  (exists v', resolve cluster "svc-3" "ns" zeroVars = Stop NotReady v').
Proof.
  destruct (C4_classification_of_lookup_errors cluster "svc-2" "ns" zeroVars) as (H1 & _).
  destruct (C4_classification_of_lookup_errors cluster "svc-5" "ns" zeroVars) as (_ & H2 & _).
  destruct (C4_classification_of_lookup_errors cluster "svc-6" "ns" zeroVars) as (_ & _ & H3 & _).
  destruct (C4_classification_of_lookup_errors cluster "svc-3" "ns" zeroVars) as (_ & _ & _ & H4).
  split; [by apply (H1 "svc-2 not found")|].
  split; [by apply (H2 "etcdserver: request timed out")|].
  split; [by eapply H3|].
  destruct (H4 (kservice T0 7) eq_refl) as [_ H].
  destruct (H eq_refl) as [_ Hstop]. exact (Hstop cluster_reports_conditions).
Defined.

Lemma C5_statistics_only_when_ready_witness :
  match run [["svc-2"; "ns"]; ["svc-3"; "ns"]] 1 (one_by_one 2) with
  | ReturnNil r =>
      Result (measureFinalResult r) = zeroAverages /\ printed r = CountsOnly /\ files r = []
  | _ => False
  end /\
  match run [["svc-1"; "ns"]; ["svc-4"; "ns"]] 1 (one_by_one 2) with
  | ReturnNil r =>
      ReadyCount (Service (measureFinalResult r)) = 2 /\
      AverageSvcRoutesReadySum (Result (measureFinalResult r)) =
        PrimFloat.div (SvcRoutesReadySum (Sums (measureFinalResult r))) (float64_of_int 2)
  | _ => False
  end.
Proof.
  split.
  - destruct (run _ 1 _) as [msg|r| |] eqn:E; try (vm_compute in E; discriminate).
    refine (proj1 (C5_statistics_only_when_ready seconds_String insertionSort no_stats no_stats
                     no_stats no_percentile params _ 1 _ r E) _).
    vm_compute in E. injection E as <-. reflexivity.
  - destruct (run _ 1 _) as [msg|r| |] eqn:E; try (vm_compute in E; discriminate).
    assert (Hready : ReadyCount (Service (measureFinalResult r)) = 2).
    { vm_compute in E. injection E as <-. reflexivity. }
    split; [exact Hready|].
    destruct (proj2 (C5_statistics_only_when_ready seconds_String insertionSort no_stats
                       no_stats no_stats no_percentile params _ 1 _ r E)) as (_ & H);
      [lia|].
    rewrite Hready in H. apply H.
Defined.

Lemma C7_overall_ready_is_routes_ready_witness :
  match
    exec seconds_String params (one_by_one 2)
      (initial 1 [["svc-1"; "ns"]; ["svc-4"; "ns"]])
  with
  | Running s =>
      length (rows s) = 2%nat /\
      Forall overall_cell_is_routes_cell (rows s) /\
      Forall overall_is_routes (workerMeasureResults s) /\
      SvcReadySum (Sums (merge (workerMeasureResults s))) =
        SvcRoutesReadySum (Sums (merge (workerMeasureResults s)))
  | _ => False
  end.
Proof.
  destruct (exec _ _ _ _) as [s| |] eqn:E; try (vm_compute in E; discriminate).
  split.
  - vm_compute in E. injection E as <-. reflexivity.
  - exact (proj2 (C7_overall_ready_is_routes_ready seconds_String params 1 _ _ s E)).
Defined.
